(** * Koyeb auto-login worker: a shallow embedding of [worker.js]

    The worker is a scheduled job.  It parses a JSON list of accounts from
    its environment, logs each account in against the Koyeb API with a
    pause between accounts, and posts a summary to a Telegram chat.

    The embedding follows the source function by function:
    [sendTGMessage], [loginKoyeb], [validateEnvVariables] and
    [scheduledEventHandler].  Effects are made explicit:

    - every [fetch], every awaited [setTimeout] of the batch loop, every
      [console] call and the [abort] of the login request is an [Event]
      appended to a trace that is threaded through the computation;
    - a JavaScript exception is the [Throw] outcome of the monad [M];
    - the runtime the worker runs on (JSON codec, [String.prototype.trim],
      string-to-number conversion, the clock and the network) is a [Host]
      record over which the theorems quantify.

    Conventions of the model.
    - A JavaScript string is a [string]; the literals of the source are kept
      as they are written there.  The operations that count characters
      ([slice0], [length_of] and [at_index] on a string) count the
      characters of this representation: they are those of JavaScript on
      ASCII text ([ascii_text]), and a theorem that depends on such a count
      assumes its text to be ASCII.
    - A JSON number is an integer ([Z]), printed in full by [ToString] as
      JavaScript prints an integer below 10^21; the only arithmetic of the
      worker is on list lengths and indices.
    - A thrown value is an [Error] object, of which only [message] is read.
    - Every [fetch] settles (it resolves or rejects); its [latency] is only
      compared against the 30 s timer of the login request. *)

From Stdlib Require Import String Ascii List ZArith Lia Bool Arith DecimalString.
Import ListNotations.
Local Open Scope string_scope.
#[local] Set Warnings "-register-all".

(* ------------------------------------------------------------------ *)
(** * JavaScript values and the primitives the worker uses             *)
(* ------------------------------------------------------------------ *)

(** A value produced by [JSON.parse].  [JObj] lists the own properties of
    the object, each key once. *)
Inductive json : Type :=
| JNull
| JBool (b : bool)
| JNum (n : Z)
| JStr (s : string)
| JArr (items : list json)
| JObj (fields : list (string * json)).

(** A JavaScript value that may be [undefined] (= [None]). *)
Definition value : Type := option json.

Inductive exn : Type :=
| Error (message : string).

(** [e.message]. *)
Definition message_of (e : exn) : string :=
  match e with Error m => m end.

Inductive outcome (A : Type) : Type :=
| Ret (a : A)
| Throw (e : exn).

Arguments Ret {A} a.
Arguments Throw {A} e.

Definition nl : string := String (ascii_of_nat 10) "".

Definition show_Z (n : Z) : string := NilEmpty.string_of_int (Z.to_int n).
Definition show_nat (n : nat) : string := show_Z (Z.of_nat n).

(** [!!s] for a string. *)
Definition truthy_str (s : string) : bool := negb (s =? "").

(** [!!v] for a parsed value. *)
Definition truthy (v : json) : bool :=
  match v with
  | JNull => false
  | JBool b => b
  | JNum n => negb (n =? 0)%Z
  | JStr s => truthy_str s
  | JArr _ | JObj _ => true
  end.

Definition truthy_value (v : value) : bool :=
  match v with Some j => truthy j | None => false end.

Fixpoint join (sep : string) (l : list string) : string :=
  match l with
  | [] => ""
  | [s] => s
  | s :: rest => s ++ sep ++ join sep rest
  end.

(** [String(v)], as a template literal applies it, for the values it
    converts without calling into them: numbers below 10^21 in absolute
    value, and objects that own no [toString] property. *)
Fixpoint ToString (v : json) : string :=
  match v with
  | JNull => "null"
  | JBool true => "true"
  | JBool false => "false"
  | JNum n => show_Z n
  | JStr s => s
  | JArr items =>
      join "," (map (fun x => match x with JNull => "" | _ => ToString x end) items)
  | JObj _ => "[object Object]"
  end.

Definition ToString_value (v : value) : string :=
  match v with Some j => ToString j | None => "undefined" end.

Fixpoint assoc {A : Type} (k : string) (kv : list (string * A)) : option A :=
  match kv with
  | [] => None
  | (k', v) :: rest => if k =? k' then Some v else assoc k rest
  end.

(** [v.name] for a non-nullish [v] and one of the names the worker reads
    ([email], [password], [message]): only an object can own them. *)
Definition field (v : json) (name : string) : value :=
  match v with
  | JObj fields => assoc name fields
  | _ => None
  end.

(** [v.name], which throws a [TypeError] on [undefined] and [null]. *)
Definition member (v : value) (name : string) : outcome value :=
  match v with
  | None =>
      Throw (Error ("Cannot read properties of undefined (reading '" ++ name ++ "')"))
  | Some JNull =>
      Throw (Error ("Cannot read properties of null (reading '" ++ name ++ "')"))
  | Some j => Ret (field j name)
  end.

(** [v.length] for a non-nullish [v]; for a string, the number of its
    characters, which is its JavaScript length on ASCII text. *)
Definition length_of (v : json) : value :=
  match v with
  | JArr items => Some (JNum (Z.of_nat (List.length items)))
  | JStr s => Some (JNum (Z.of_nat (String.length s)))
  | JObj fields => assoc "length" fields
  | _ => None
  end.

(** [v[index]] for a non-nullish [v] and a non-negative integer [index];
    for a string, its character at [index], as JavaScript has it on ASCII
    text. *)
Definition at_index (v : json) (index : nat) : value :=
  match v with
  | JArr items => nth_error items index
  | JStr s =>
      match String.get index s with
      | Some c => Some (JStr (String c ""))
      | None => None
      end
  | JObj fields => assoc (show_nat index) fields
  | _ => None
  end.

(** [s.slice(0, n)]: the first [n] characters, as JavaScript has them on
    ASCII text. *)
Fixpoint slice0 (n : nat) (s : string) : string :=
  match n, s with
  | S k, String c rest => String c (slice0 k rest)
  | _, _ => ""
  end.

(** [hay.includes(needle)]. *)
Fixpoint includes (needle hay : string) : bool :=
  String.prefix needle hay
  || match hay with
     | String _ rest => includes needle rest
     | EmptyString => false
     end.

(** [s.split(';')[0]]. *)
Fixpoint before_semicolon (s : string) : string :=
  match s with
  | EmptyString => ""
  | String c rest => if (c =? ";")%char then "" else String c (before_semicolon rest)
  end.

(* ------------------------------------------------------------------ *)
(** * The runtime, the events and the monad                            *)
(* ------------------------------------------------------------------ *)

Record Request : Type := {
  url : string;
  method : string;
  headers : list (string * string);
  body : option string
}.

(** A response, with the two headers the worker reads. *)
Record Response : Type := {
  status : nat;
  content_type : option string;
  set_cookie : option string;
  text : string
}.

Definition ok (r : Response) : bool :=
  ((200 <=? status r) && (status r <=? 299))%nat.

Inductive Settled : Type :=
| Resolved (r : Response)
| Rejected (reason : string).

Record Reply : Type := {
  latency : N;            (* milliseconds until the promise settles *)
  settled : Settled
}.

Inductive parsed : Type :=
| Parsed (v : json)
| SyntaxError (reason : string).

Record Host : Type := {
  JSON_parse : string -> parsed;
  JSON_stringify : json -> string;
  trim : string -> string;
  StringToNumber : string -> option Z;   (* [None] is [NaN] *)
  (* new Date().toLocaleString('zh-CN', { timeZone: 'Asia/Shanghai' }) *)
  currentTime : string;
  (* the reply to the n-th request of the run *)
  network : nat -> Request -> Reply;
  (* the one fact about [trim] the development relies on *)
  trim_empty : trim "" = ""
}.

Record Env : Type := {
  TG_BOT_TOKEN : option string;
  TG_CHAT_ID : option string;
  KOYEB_ACCOUNTS : option string
}.

Inductive Level : Type := Log | Info | Warn | Err.

Inductive Event : Type :=
| Fetch (req : Request)
| Sleep (ms : N)
| Abort
| Console (level : Level) (line : string).

Definition Trace : Type := list Event.

Definition requests (tr : Trace) : list Request :=
  flat_map (fun ev => match ev with Fetch r => [r] | _ => [] end) tr.

Definition M (A : Type) : Type := Trace -> outcome A * Trace.

Definition ret {A} (a : A) : M A := fun tr => (Ret a, tr).

Definition throw {A} (e : exn) : M A := fun tr => (Throw e, tr).

Definition bind {A B} (m : M A) (k : A -> M B) : M B :=
  fun tr =>
    match m tr with
    | (Ret a, tr') => k a tr'
    | (Throw e, tr') => (Throw e, tr')
    end.

Definition try_catch {A} (block : M A) (handler : exn -> M A) : M A :=
  fun tr =>
    match block tr with
    | (Ret a, tr') => (Ret a, tr')
    | (Throw e, tr') => handler e tr'
    end.

Definition lift {A} (o : outcome A) : M A := fun tr => (o, tr).

Definition emit (ev : Event) : M unit := fun tr => (Ret tt, (tr ++ [ev])%list).

Definition console (level : Level) (line : string) : M unit :=
  emit (Console level line).

Declare Scope js_scope.
Delimit Scope js_scope with js.
Notation "x <- m ;; k" := (bind m (fun x => k))
  (at level 61, m at next level, right associativity) : js_scope.
Notation "m ;; k" := (bind m (fun _ => k))
  (at level 61, right associativity) : js_scope.
Local Open Scope js_scope.

(** [await fetch(url, init)]: the request is recorded, the host answers. *)
Definition fetch (h : Host) (req : Request) : M Reply :=
  fun tr => (Ret (network h (List.length (requests tr)) req), (tr ++ [Fetch req])%list).

Definition await_fetch (h : Host) (req : Request) : M Response :=
  reply <- fetch h req ;;
  match settled reply with
  | Resolved r => ret r
  | Rejected reason => throw (Error reason)
  end.

(** [Promise.race([fetch(url, init), timeoutPromise])]: the timer wins when
    the request has not settled after [ms] milliseconds; it aborts the
    request and rejects. *)
Definition fetch_with_timeout (h : Host) (req : Request) (ms : N) : M Response :=
  reply <- fetch h req ;;
  if (latency reply <? ms)%N then
    match settled reply with
    | Resolved r => ret r
    | Rejected reason => throw (Error reason)
    end
  else
    emit Abort ;; throw (Error "请求超时").

(* ------------------------------------------------------------------ *)
(** * [sendTGMessage]                                                  *)
(* ------------------------------------------------------------------ *)

(** [!x] is false: the variable is set and not the empty string. *)
Definition configured (x : option string) : option string :=
  match x with
  | Some s => if truthy_str s then Some s else None
  | None => None
  end.

Definition json_post (h : Host) (url : string) (payload : json) : Request :=
  {| url := url;
     method := "POST";
     headers := [("Content-Type", "application/json")];
     body := Some (JSON_stringify h payload) |}.

(** The message of the error [sendJson] throws on a response that is not
    [ok]. *)
Definition http_error (response : Response) : string :=
  let errorText := text response in
  let details := if truthy_str errorText then " - " ++ slice0 200 errorText else "" in
  "HTTP " ++ show_nat (status response) ++ details.

Definition sendJson (h : Host) (url : string) (payload : json) : M Response :=
  response <- await_fetch h (json_post h url payload) ;;
  if negb (ok response) then
    throw (Error (http_error response))
  else
    ret response.

Definition markdown_payload (chatId message : string) : json :=
  JObj [("chat_id", JStr chatId); ("text", JStr message); ("parse_mode", JStr "Markdown")].

Definition plain_payload (chatId message : string) : json :=
  JObj [("chat_id", JStr chatId); ("text", JStr message)].

Definition sendMessage_url (botToken : string) : string :=
  "https://api.telegram.org/bot" ++ botToken ++ "/sendMessage".

(** The function returns [true] or [null]. *)
Definition sendTGMessage (h : Host) (message : string) (env : Env) : M json :=
  match configured (TG_BOT_TOKEN env), configured (TG_CHAT_ID env) with
  | Some botToken, Some chatId =>
      let url := sendMessage_url botToken in
      try_catch
        (try_catch
           (sendJson h url (markdown_payload chatId message) ;;
            console Info "✅ Telegram 消息发送成功")
           (fun error =>
              if String.prefix "HTTP 400" (message_of error) then
                console Warn ("⚠️ Telegram 返回 400，改用纯文本重试: " ++ message_of error) ;;
                sendJson h url (plain_payload chatId message) ;;
                console Info "✅ Telegram 消息发送成功（纯文本重试）"
              else
                throw error) ;;
         ret (JBool true))
        (fun e =>
           console Err ("❌ 发送 Telegram 消息失败: " ++ message_of e) ;;
           ret JNull)
  | _, _ =>
      console Warn "⚠️ TG_BOT_TOKEN 或 TG_CHAT_ID 未设置，跳过 Telegram 消息发送" ;;
      ret JNull
  end.

(* ------------------------------------------------------------------ *)
(** * [loginKoyeb]                                                     *)
(* ------------------------------------------------------------------ *)

Definition loginPageUrl : string := "https://app.koyeb.com/auth/login".
Definition loginUrl : string := "https://app.koyeb.com/v1/account/login".

Definition login_headers : list (string * string) :=
  [("Accept", "application/json, text/plain, */*");
   ("Content-Type", "application/json");
   ("Origin", "https://app.koyeb.com");
   ("Referer", "https://app.koyeb.com/auth/login");
   ("User-Agent", "Mozilla/5.0 (Windows NT 10.0; Win64; x64) AppleWebKit/537.36 (KHTML, like Gecko) Chrome/91.0.4472.124 Safari/537.36")].

Definition preflight_request : Request :=
  {| url := loginPageUrl; method := "GET"; headers := login_headers; body := None |}.

(** The GET of the login page, which yields [preflightCookie]. *)
Definition preflight (h : Host) : M string :=
  try_catch
    (preload <- await_fetch h preflight_request ;;
     if ok preload then
       match set_cookie preload with
       | Some setCookie =>
           if truthy_str setCookie then ret (before_semicolon setCookie) else ret ""
       | None => ret ""
       end
     else ret "")
    (fun preErr =>
       console Warn ("⚠️ 预检登录页失败，继续尝试登录: " ++ message_of preErr) ;;
       ret "").

(** [await response.json()]. *)
Definition response_json (h : Host) (response : Response) : M json :=
  match JSON_parse h (text response) with
  | Parsed v => ret v
  | SyntaxError reason => throw (Error reason)
  end.

(** The diagnostic taken from a JSON body:
    [errorData.message || JSON.stringify(errorData)]. *)
Definition json_diagnostic (h : Host) (response : Response) : M string :=
  errorData <- response_json h response ;;
  msg <- lift (member (Some errorData) "message") ;;
  ret (if truthy_value msg then ToString_value msg else JSON_stringify h errorData).

(** The diagnostic taken from a body that is not JSON: [None] when the
    trimmed text is empty. *)
Definition text_diagnostic (h : Host) (response : Response) : option string :=
  let text := trim h (text response) in
  if truthy_str text then Some (slice0 200 text) else None.

Definition is_json_typed (response : Response) : bool :=
  match content_type response with
  | Some contentType => truthy_str contentType && includes "application/json" contentType
  | None => false
  end.

(** The message of a response that is not [ok]. *)
Definition failure_message (h : Host) (response : Response) : M string :=
  let errorMsg := "HTTP状态码 " ++ show_nat (status response) in
  errorMsg <- (if is_json_typed response then
                 diagnostic <- json_diagnostic h response ;;
                 ret (errorMsg ++ " - " ++ diagnostic)
               else
                 match text_diagnostic h response with
                 | Some diagnostic => ret (errorMsg ++ " - " ++ diagnostic)
                 | None => ret errorMsg
                 end) ;;
  if (status response =? 403)%nat then
    ret (errorMsg ++ "（可能需要验证码或 Cookie）")
  else
    ret errorMsg.

Definition login_request (h : Host) (preflightCookie : string) (data : json) : Request :=
  {| url := loginUrl;
     method := "POST";
     headers := if truthy_str preflightCookie
                then (login_headers ++ [("Cookie", preflightCookie)])%list
                else login_headers;
     body := Some (JSON_stringify h data) |}.

Definition loginKoyeb (h : Host) (email : string) (password : json) : M (bool * string) :=
  if negb (truthy_str email) || negb (truthy password) then
    ret (false, "邮箱或密码为空")
  else
    let data := JObj [("email", JStr (trim h email)); ("password", password)] in
    try_catch
      (preflightCookie <- preflight h ;;
       response <- fetch_with_timeout h (login_request h preflightCookie data) 30000 ;;
       if negb (ok response) then
         errorMsg <- failure_message h response ;;
         ret (false, errorMsg)
       else
         ret (true, "登录成功"))
      (fun e => ret (false, message_of e)).

(* ------------------------------------------------------------------ *)
(** * [validateEnvVariables] and [scheduledEventHandler]               *)
(* ------------------------------------------------------------------ *)

Definition validateEnvVariables (h : Host) (env : Env) : M json :=
  match configured (KOYEB_ACCOUNTS env) with
  | None => throw (Error "❌ KOYEB_ACCOUNTS 环境变量未设置或格式错误")
  | Some koyebAccountsEnv =>
      match JSON_parse h koyebAccountsEnv with
      | Parsed v => ret v
      | SyntaxError _ => throw (Error "❌ KOYEB_ACCOUNTS JSON 格式无效")
      end
  end.

(** [Number(v)], as [<] and [-] apply it; [None] is [NaN]. *)
Definition ToNumber (h : Host) (v : value) : option Z :=
  match v with
  | None => None
  | Some JNull => Some 0%Z
  | Some (JBool b) => Some (if b then 1%Z else 0%Z)
  | Some (JNum n) => Some n
  | Some (JStr s) => StringToNumber h s
  | Some j => StringToNumber h (ToString j)
  end.

(** [v === 0]. *)
Definition is_zero (v : value) : bool :=
  match v with
  | Some (JNum n) => (n =? 0)%Z
  | _ => false
  end.

(** The number of indices [0, 1, ...] for which [index < totalAccounts]. *)
Definition iterations (h : Host) (totalAccounts : value) : nat :=
  match ToNumber h totalAccounts with
  | Some n => Z.to_nat n
  | None => 0
  end.

(** [account.email?.trim()]. *)
Definition optional_trim (h : Host) (v : value) : outcome (option string) :=
  match v with
  | None | Some JNull => Ret None
  | Some (JStr s) => Ret (Some (trim h s))
  | Some _ => Throw (Error "account.email?.trim is not a function")
  end.

(** The credentials of an account, when [!email || !password] is false. *)
Definition complete (email : option string) (password : value) : option (string * json) :=
  match email, password with
  | Some e, Some p => if truthy_str e && truthy p then Some (e, p) else None
  | _, _ => None
  end.

Definition show_email (email : option string) : string :=
  match email with Some e => e | None => "undefined" end.

Definition success_line (email : string) : string :=
  "✅ 账户: " ++ email ++ " 登录成功" ++ nl.

Definition failure_line (email message : string) : string :=
  "❌ 账户: " ++ email ++ " 登录失败 - " ++ message ++ nl.

Definition exception_line (email message : string) : string :=
  "❌ 账户: " ++ email ++ " 登录失败 - 执行异常: " ++ message ++ nl.

(** What the loop carries from one account to the next. *)
Definition Progress : Type := (list string * nat)%type.   (* results, successCount *)

Section Batch.

Variable h : Host.
(** The login procedure the handler calls; the worker binds it to
    [loginKoyeb]. *)
Variable login : string -> json -> M (bool * string).

(** The [try] block of the loop body, for an account that is complete. *)
Definition attempt (totalAccounts : value) (index : nat)
           (email : string) (password : json) (st : Progress) : M Progress :=
  let '(results, successCount) := st in
  try_catch
    (console Info ("🔄 处理账户 " ++ show_nat (index + 1) ++ "/"
                   ++ ToString_value totalAccounts ++ ": " ++ email) ;;
     (if (0 <? index)%nat then emit (Sleep 5000) else ret tt) ;;
     r <- login email password ;;
     let '(success, message) := r in
     if success then
       ret ((results ++ [success_line email])%list, S successCount)
     else
       ret ((results ++ [failure_line email message])%list, successCount))
    (fun e =>
       ret ((results ++ [exception_line email (message_of e)])%list, successCount)).

(** One turn of the [for] loop. *)
Definition iteration (accounts : json) (totalAccounts : value) (index : nat)
           (st : Progress) : M Progress :=
  let account := at_index accounts index in
  raw <- lift (member account "email") ;;
  email <- lift (optional_trim h raw) ;;
  password <- lift (member account "password") ;;
  match complete email password with
  | None =>
      console Warn ("⚠️ 账户信息不完整，跳过: " ++ show_email email) ;;
      ret st
  | Some (email, password) => attempt totalAccounts index email password st
  end.

(** The turns [index], [index + 1], ..., [index + todo - 1]. *)
Fixpoint for_loop (accounts : json) (totalAccounts : value) (todo index : nat)
         (st : Progress) : M Progress :=
  match todo with
  | O => ret st
  | S todo' =>
      st' <- iteration accounts totalAccounts index st ;;
      for_loop accounts totalAccounts todo' (S index) st'
  end.

Definition summary (totalAccounts : value) (successCount : nat) : string :=
  "📊 总计: " ++ ToString_value totalAccounts ++ " 个账户" ++ nl
  ++ "✅ 成功: " ++ show_nat successCount ++ " | ❌ 失败: "
  ++ match ToNumber h totalAccounts with
     | Some n => show_Z (n - Z.of_nat successCount)
     | None => "NaN"
     end
  ++ nl ++ nl.

Definition tgMessage (totalAccounts : value) (st : Progress) : string :=
  let '(results, successCount) := st in
  "🤖 *Koyeb 登录状态报告*" ++ nl ++ "⏰ *检查时间:* " ++ currentTime h ++ nl ++ nl
  ++ summary totalAccounts successCount ++ String.concat "" results.

(** The accounts are read and all of them are tried: the body of the
    outer [try] up to the end of the loop. *)
Definition runAccounts (env : Env) : M (value * Progress) :=
  accounts <- validateEnvVariables h env ;;
  if negb (truthy accounts) || is_zero (length_of accounts) then
    throw (Error "❌ 没有找到有效的 Koyeb 账户信息")
  else
    let totalAccounts := length_of accounts in
    st <- for_loop accounts totalAccounts (iterations h totalAccounts) 0 ([], 0) ;;
    ret (totalAccounts, st).

(** The body of the outer [try] up to the report: it throws when there
    is nothing to report. *)
Definition buildReport (env : Env) : M string :=
  r <- runAccounts env ;;
  let '(totalAccounts, st) := r in
  if (List.length (fst st) =? 0)%nat then
    throw (Error "❌ 没有任何账户处理结果")
  else
    ret (tgMessage totalAccounts st).

Definition scheduledEventHandlerWith (env : Env) : M unit :=
  try_catch
    (tgMessage <- buildReport env ;;
     console Log tgMessage ;;
     sendTGMessage h tgMessage env ;;
     ret tt)
    (fun e =>
       let errorMessage := "❌ 程序执行出错: " ++ message_of e in
       console Err errorMessage ;;
       sendTGMessage h errorMessage env ;;
       ret tt).

End Batch.

Definition scheduledEventHandler (h : Host) (env : Env) : M unit :=
  scheduledEventHandlerWith h (loginKoyeb h) env.

(* ------------------------------------------------------------------ *)
(** * Account records and report items                                 *)
(* ------------------------------------------------------------------ *)

(** An account of the configuration: an object whose [email] and
    [password], when present, are strings. *)
Record AccountRecord : Type := {
  email : option string;
  password : option string
}.

Definition json_of_record (r : AccountRecord) : json :=
  JObj ((match email r with Some e => [("email", JStr e)] | None => [] end)
        ++ (match password r with Some p => [("password", JStr p)] | None => [] end))%list.

Definition accounts_json (rs : list AccountRecord) : json :=
  JArr (map json_of_record rs).

(** The record has an email that is not empty once trimmed, and a
    password that is not empty. *)
Definition usable (h : Host) (r : AccountRecord) : bool :=
  match email r, password r with
  | Some e, Some p => negb (trim h e =? "") && negb (p =? "")
  | _, _ => false
  end.

(** The record has an email and a password, and neither is the empty
    string. *)
Definition nonempty_fields (r : AccountRecord) : bool :=
  match email r, password r with
  | Some e, Some p => negb (e =? "") && negb (p =? "")
  | _, _ => false
  end.

(** The arguments [login] receives for a usable record. *)
Definition login_name (h : Host) (r : AccountRecord) : string :=
  match email r with Some e => trim h e | None => "" end.

Definition login_secret (r : AccountRecord) : json :=
  match password r with Some p => JStr p | None => JNull end.

(** One line of the report, before it is rendered. *)
Inductive Item : Type :=
| Succeeded (account : string)
| Failed (account reason : string)
| Crashed (account reason : string).

Definition item_account (it : Item) : string :=
  match it with
  | Succeeded a | Failed a _ | Crashed a _ => a
  end.

Definition render (it : Item) : string :=
  match it with
  | Succeeded a => success_line a
  | Failed a reason => failure_line a reason
  | Crashed a reason => exception_line a reason
  end.

Definition is_success (it : Item) : bool :=
  match it with Succeeded _ => true | _ => false end.

Definition successes (items : list Item) : nat :=
  List.length (filter is_success items).

Definition failures (items : list Item) : nat :=
  List.length (filter (fun it => negb (is_success it)) items).

(** The item that the loop records for what a login call did. *)
Definition item_of (account : string) (o : outcome (bool * string)) : Item :=
  match o with
  | Ret (true, _) => Succeeded account
  | Ret (false, reason) => Failed account reason
  | Throw e => Crashed account (message_of e)
  end.

(** The pauses and the login calls of a trace, in order.  A login call
    shows as its first request, the GET of the login page. *)
Inductive Tick : Type :=
| Pause (ms : N)
| LoginCall.

Definition tick_of (ev : Event) : list Tick :=
  match ev with
  | Sleep ms => [Pause ms]
  | Fetch req => if url req =? loginPageUrl then [LoginCall] else []
  | _ => []
  end.

Definition timeline (tr : Trace) : list Tick := flat_map tick_of tr.

(** The pauses and login calls of a batch, by the position of each record
    in the list. *)
Fixpoint schedule (usable : AccountRecord -> bool) (index : nat)
         (rs : list AccountRecord) : list Tick :=
  match rs with
  | [] => []
  | r :: rest =>
      ((if usable r
        then (if (0 <? index)%nat then [Pause 5000] else []) ++ [LoginCall]
        else [])
       ++ schedule usable (S index) rest)%list
  end.

(** What a caller could learn about a send. *)
Inductive Delivery : Type := Delivered | Skipped | NotDelivered.

Definition is_array (v : json) : bool :=
  match v with JArr _ => true | _ => false end.

(** The error of one delivery attempt: [None] when the response is [ok]. *)
Definition attempt_error (s : Settled) : option string :=
  match s with
  | Resolved r => if ok r then None else Some (http_error r)
  | Rejected reason => Some reason
  end.

(** The trace in which [login] is called for the record at [index]. *)
Definition before_login (totalAccounts : value) (index : nat) (account : string)
           (tr : Trace) : Trace :=
  (tr ++ Console Info ("🔄 处理账户 " ++ show_nat (index + 1) ++ "/"
                       ++ ToString_value totalAccounts ++ ": " ++ account)
      :: (if (0 <? index)%nat then [Sleep 5000] else []))%list.

(** The warning logged for a record that is skipped. *)
Definition skip_warning (h : Host) (r : AccountRecord) : Event :=
  Console Warn ("⚠️ 账户信息不完整，跳过: " ++ show_email (option_map (trim h) (email r))).

(** [totalAccounts] for a list of [n] accounts. *)
Definition total_of (n : nat) : value := Some (JNum (Z.of_nat n)).

(** The header and the report, for a list of [total] accounts. *)
Definition summary_text (total succeeded failed : nat) : string :=
  "📊 总计: " ++ show_nat total ++ " 个账户" ++ nl
  ++ "✅ 成功: " ++ show_nat succeeded ++ " | ❌ 失败: " ++ show_nat failed
  ++ nl ++ nl.

Definition report_text (h : Host) (total succeeded failed : nat)
           (lines : list string) : string :=
  "🤖 *Koyeb 登录状态报告*" ++ nl ++ "⏰ *检查时间:* " ++ currentTime h ++ nl ++ nl
  ++ summary_text total succeeded failed ++ String.concat "" lines.

(** The three errors that end a run before any report. *)
Definition fatal_messages : list string :=
  ["❌ KOYEB_ACCOUNTS 环境变量未设置或格式错误";
   "❌ 没有找到有效的 Koyeb 账户信息";
   "❌ 没有任何账户处理结果"].

Definition count_calls (tl : list Tick) : nat :=
  List.length (filter (fun t => match t with LoginCall => true | _ => false end) tl).

(** A timeline of [calls] login calls with a pause before each one but
    the first. *)
Fixpoint pauses_between (calls : nat) : list Tick :=
  match calls with
  | O => []
  | S k =>
      match k with
      | O => [LoginCall]
      | S _ => (pauses_between k ++ [Pause 5000; LoginCall])%list
      end
  end.

(** The readings of the report that the code does not bear out; each is
    refuted on a concrete run below. *)

(** The batch has one line for each record that passes [keep]. *)
Definition one_line_per_record (keep : AccountRecord -> bool) (h : Host)
           (login : string -> json -> M (bool * string)) (env : Env)
           (rs : list AccountRecord) : Prop :=
  exists totalAccounts results successCount tr',
    runAccounts h login env [] = (Ret (totalAccounts, (results, successCount)), tr')
    /\ List.length results = List.length (filter keep rs).

(** What [sendTGMessage] returns tells a skipped send from a failed one. *)
Definition result_tells_apart (skipped failed : outcome json * Trace) : Prop :=
  exists classify : json -> Delivery,
    (forall v tr', skipped = (Ret v, tr') -> classify v = Skipped)
    /\ (forall v tr', failed = (Ret v, tr') -> classify v = NotDelivered).

(** The timeline pauses before every login call but the first one made. *)
Definition pauses_only_between_calls (tl : list Tick) : Prop :=
  tl = pauses_between (count_calls tl).

(** A configuration that is not an array ends in the error of the empty
    result list. *)
Definition non_array_is_fatal (h : Host) (env : Env) : Prop :=
  forall v tr,
    validateEnvVariables h env [] = (Ret v, tr) ->
    is_array v = false ->
    exists tr', buildReport h (loginKoyeb h) env []
                = (Throw (Error "❌ 没有任何账户处理结果"), tr').

(* ------------------------------------------------------------------ *)
(** * Concrete runtimes, for the examples                              *)
(* ------------------------------------------------------------------ *)

Definition ascii_space (c : ascii) : bool :=
  let n := nat_of_ascii c in ((n =? 32) || ((9 <=? n) && (n <=? 13)))%nat.

Fixpoint trim_start (s : string) : string :=
  match s with
  | EmptyString => ""
  | String c rest => if ascii_space c then trim_start rest else s
  end.

Fixpoint trim_end (s : string) : string :=
  match s with
  | EmptyString => ""
  | String c rest =>
      match trim_end rest with
      | EmptyString => if ascii_space c then "" else String c ""
      | t => String c t
      end
  end.

(** [trim] on strings whose white space is ASCII. *)
Definition ascii_trim (s : string) : string := trim_end (trim_start s).

Definition quote : string := String (ascii_of_nat 34) "".

(** [JSON.stringify] on values whose strings need no escaping. *)
Fixpoint plain_stringify (v : json) : string :=
  match v with
  | JNull => "null"
  | JBool true => "true"
  | JBool false => "false"
  | JNum n => show_Z n
  | JStr s => quote ++ s ++ quote
  | JArr items => "[" ++ join "," (map plain_stringify items) ++ "]"
  | JObj fields =>
      "{" ++ join "," (map (fun kv => let '(k, x) := kv in
                                      quote ++ k ++ quote ++ ":" ++ plain_stringify x)
                           fields) ++ "}"
  end.

Fixpoint digits (acc : Z) (s : string) : option Z :=
  match s with
  | EmptyString => Some acc
  | String c rest =>
      let n := nat_of_ascii c in
      if ((48 <=? n) && (n <=? 57))%nat
      then digits (10 * acc + Z.of_nat (n - 48)) rest
      else None
  end.

(** [Number(s)] on strings of decimal digits. *)
Definition digits_to_number (s : string) : option Z := digits 0 s.

(** [JSON.parse] on the documents of a table. *)
Definition table_parse (table : list (string * json)) (s : string) : parsed :=
  match assoc s table with
  | Some v => Parsed v
  | None => SyntaxError "Unexpected token in JSON"
  end.

(** A network that answers the n-th request with the n-th reply of a
    script, and refuses any further request. *)
Definition scripted (replies : list Reply) (n : nat) (_ : Request) : Reply :=
  nth n replies {| latency := 0; settled := Rejected "fetch failed" |}.

Definition test_host (table : list (string * json)) (replies : list Reply) : Host :=
  {| JSON_parse := table_parse table;
     JSON_stringify := plain_stringify;
     trim := ascii_trim;
     StringToNumber := digits_to_number;
     currentTime := "2024/1/1 08:00:00";
     network := scripted replies;
     trim_empty := eq_refl |}.

Definition replies_with (status : nat) (contentType : option string) (text : string) : Reply :=
  {| latency := 120;
     settled := Resolved {| status := status; content_type := contentType;
                            set_cookie := None; text := text |} |}.

Definition test_env (accounts : string) : Env :=
  {| TG_BOT_TOKEN := Some "123:abc"; TG_CHAT_ID := Some "42";
     KOYEB_ACCOUNTS := Some accounts |}.

Definition account (e p : string) : AccountRecord :=
  {| email := Some e; password := Some p |}.

Fixpoint replicate (n : nat) (c : ascii) : string :=
  match n with
  | O => ""
  | S k => String c (replicate k c)
  end.

(** A login procedure that crashes for one account and succeeds for the
    others. *)
Definition crashing_for (victim : string) (e : string) (_ : json) : M (bool * string) :=
  if e =? victim then throw (Error "boom") else ret (true, "登录成功").

(* ------------------------------------------------------------------ *)
(** * Readings of a login and of a batch                               *)
(* ------------------------------------------------------------------ *)

(** [preflightCookie] after the GET of the login page settled as [s]. *)
Definition preflight_cookie (s : Settled) : string :=
  match s with
  | Resolved preload =>
      if ok preload then
        match set_cookie preload with
        | Some setCookie => if truthy_str setCookie then before_semicolon setCookie else ""
        | None => ""
        end
      else ""
  | Rejected _ => ""
  end.

(** What the GET of the login page logs. *)
Definition preflight_events (s : Settled) : list Event :=
  match s with
  | Resolved _ => []
  | Rejected reason => [Console Warn ("⚠️ 预检登录页失败，继续尝试登录: " ++ reason)]
  end.

(** [data], the payload of the login request. *)
Definition login_data (h : Host) (email : string) (password : json) : json :=
  JObj [("email", JStr (trim h email)); ("password", password)].

(** What [failure_message] returns; it leaves the trace alone. *)
Definition failure_text (h : Host) (response : Response) : outcome string :=
  fst (failure_message h response []).

(** The result of [loginKoyeb] once the login request got [reply]. *)
Definition login_result (h : Host) (reply : Reply) : bool * string :=
  if (latency reply <? 30000)%N then
    match settled reply with
    | Resolved response =>
        if ok response then (true, "登录成功")
        else match failure_text h response with
             | Ret errorMsg => (false, errorMsg)
             | Throw e => (false, message_of e)
             end
    | Rejected reason => (false, reason)
    end
  else (false, "请求超时").

(** The message [core] of a failure, with the note a 403 gets. *)
Definition annotated (response : Response) (core : string) : string :=
  if (status response =? 403)%nat then core ++ "（可能需要验证码或 Cookie）" else core.

Fixpoint has_char (c : ascii) (s : string) : bool :=
  match s with
  | EmptyString => false
  | String c' rest => (c' =? c)%char || has_char c rest
  end.

(** The bodies of the login requests of a trace, in order. *)
Definition login_bodies (tr : Trace) : list (option string) :=
  flat_map (fun req => if url req =? loginUrl then [body req] else []) (requests tr).

(** The event is one a send can add: a log line, or a JSON POST to the
    [sendMessage] endpoint of the configured bot. *)
Definition telegram_event (env : Env) (ev : Event) : Prop :=
  match ev with
  | Fetch req =>
      exists botToken, configured (TG_BOT_TOKEN env) = Some botToken
                       /\ url req = sendMessage_url botToken
                       /\ method req = "POST"
                       /\ headers req = [("Content-Type", "application/json")]
  | Console _ _ => True
  | Sleep _ | Abort => False
  end.

(** An element of the account list on which reading the email throws,
    with the message of the [TypeError]: [null], or an object whose
    [email] is neither absent, [null] nor a string. *)
Inductive malformed : json -> string -> Prop :=
| malformed_null :
    malformed JNull "Cannot read properties of null (reading 'email')"
| malformed_email : forall fields v,
    assoc "email" fields = Some v ->
    v <> JNull ->
    (forall s, v <> JStr s) ->
    malformed (JObj fields) "account.email?.trim is not a function".

(** A reply with a latency and a cookie of one's choice. *)
Definition replies_after (ms : N) (status : nat) (contentType setCookie : option string)
           (text : string) : Reply :=
  {| latency := ms;
     settled := Resolved {| status := status; content_type := contentType;
                            set_cookie := setCookie; text := text |} |}.

(** The text has ASCII characters only, so that a character of the model
    is a character of the JavaScript string. *)
Fixpoint ascii_text (s : string) : bool :=
  match s with
  | EmptyString => true
  | String c rest => (nat_of_ascii c <? 128)%nat && ascii_text rest
  end.

(** The error a configured send ends with, [None] when its last attempt
    met none; [n] requests were made before the send. *)
Definition send_error (h : Host) (message botToken chatId : string) (n : nat)
  : option string :=
  let first := json_post h (sendMessage_url botToken) (markdown_payload chatId message) in
  let second := json_post h (sendMessage_url botToken) (plain_payload chatId message) in
  match attempt_error (settled (network h n first)) with
  | None => None
  | Some err =>
      if String.prefix "HTTP 400" err
      then attempt_error (settled (network h (S n) second))
      else Some err
  end.

(* ------------------------------------------------------------------ *)
(** * Traces and the equations of the network primitives               *)
(* ------------------------------------------------------------------ *)

(** ** Facts about strings *)

Lemma prefix_skip : forall a p x : string,
  String.prefix (a ++ p) (a ++ x) = String.prefix p x.
Proof.
  induction a as [|c a IH]; intros; simpl; [reflexivity|].
  destruct (ascii_dec c c) as [_|ne]; [apply IH | contradiction ne; reflexivity].
Qed.

Lemma prefix_within : forall p s d : string,
  String.length p <= String.length s ->
  String.prefix p (s ++ d) = String.prefix p s.
Proof.
  induction p as [|a p IH]; intros s d H.
  - destruct s; destruct d; reflexivity.
  - destruct s as [|c s]; simpl in *; [lia|].
    destruct (ascii_dec a c); [apply IH; lia | reflexivity].
Qed.

(** A status of three digits starts with 400 only when it is 400. *)
Lemma status_prefix_400 : forall n d,
  100 <= n <= 999 ->
  String.prefix "400" (show_nat n ++ d) = (n =? 400)%nat.
Proof.
  intros n d Hn.
  assert (H : forallb (fun k =>
                match show_nat k with
                | String _ (String _ (String _ EmptyString)) =>
                    Bool.eqb (String.prefix "400" (show_nat k)) (k =? 400)%nat
                | _ => false
                end) (seq 100 900) = true) by (vm_compute; reflexivity).
  rewrite forallb_forall in H. specialize (H n). rewrite in_seq in H.
  specialize (H ltac:(lia)).
  destruct (show_nat n) as [|a [|b [|c [|]]]]; try discriminate.
  apply eqb_prop in H. rewrite <- H.
  apply prefix_within. simpl. lia.
Qed.

Lemma slice0_length : forall n s, String.length (slice0 n s) <= n.
Proof.
  induction n as [|n IH]; intros [|c s]; simpl; try lia.
  specialize (IH s). lia.
Qed.

#[local] Arguments String.append : simpl never.
#[local] Arguments String.prefix : simpl never.

Lemma http_error_400 : forall r,
  100 <= status r <= 999 ->
  String.prefix "HTTP 400" (http_error r) = (status r =? 400)%nat.
Proof.
  intros r Hr. unfold http_error.
  change "HTTP 400" with ("HTTP " ++ "400").
  rewrite prefix_skip. apply status_prefix_400, Hr.
Qed.

Lemma requests_app : forall a b : Trace,
  requests (a ++ b)%list = (requests a ++ requests b)%list.
Proof. intros; unfold requests; apply flat_map_app. Qed.

Lemma timeline_app : forall a b : Trace,
  timeline (a ++ b)%list = (timeline a ++ timeline b)%list.
Proof. intros; unfold timeline; apply flat_map_app. Qed.

Lemma await_fetch_run : forall h req tr,
  await_fetch h req tr
  = (match settled (network h (List.length (requests tr)) req) with
     | Resolved r => Ret r
     | Rejected reason => Throw (Error reason)
     end, (tr ++ [Fetch req])%list).
Proof.
  intros. unfold await_fetch, fetch, bind.
  destruct (settled _); reflexivity.
Qed.

Lemma sendJson_run : forall h url payload tr,
  sendJson h url payload tr
  = (match settled (network h (List.length (requests tr)) (json_post h url payload)) with
     | Resolved r => if ok r then Ret r else Throw (Error (http_error r))
     | Rejected reason => Throw (Error reason)
     end, (tr ++ [Fetch (json_post h url payload)])%list).
Proof.
  intros. unfold sendJson, bind. rewrite await_fetch_run.
  destruct (settled _) as [r|]; [|reflexivity].
  destruct (ok r); reflexivity.
Qed.

(* ------------------------------------------------------------------ *)
(** * [sendTGMessage]                                                  *)
(* ------------------------------------------------------------------ *)

Section Send.

Variables (h : Host) (message : string) (env : Env) (tr : Trace).
Variables (botToken chatId : string).
Hypothesis token_set : configured (TG_BOT_TOKEN env) = Some botToken.
Hypothesis chat_set : configured (TG_CHAT_ID env) = Some chatId.

Let first := json_post h (sendMessage_url botToken) (markdown_payload chatId message).
Let second := json_post h (sendMessage_url botToken) (plain_payload chatId message).
Let n := List.length (requests tr).

(** The whole decision tree of a configured send. *)
Lemma sendTGMessage_run :
  sendTGMessage h message env tr
  = match attempt_error (settled (network h n first)) with
    | None =>
        (Ret (JBool true),
         (tr ++ [Fetch first; Console Info "✅ Telegram 消息发送成功"])%list)
    | Some err =>
        if String.prefix "HTTP 400" err then
          match attempt_error (settled (network h (S n) second)) with
          | None =>
              (Ret (JBool true),
               (tr ++ [Fetch first;
                       Console Warn ("⚠️ Telegram 返回 400，改用纯文本重试: " ++ err);
                       Fetch second;
                       Console Info "✅ Telegram 消息发送成功（纯文本重试）"])%list)
          | Some err' =>
              (Ret JNull,
               (tr ++ [Fetch first;
                       Console Warn ("⚠️ Telegram 返回 400，改用纯文本重试: " ++ err);
                       Fetch second;
                       Console Err ("❌ 发送 Telegram 消息失败: " ++ err')])%list)
          end
        else
          (Ret JNull,
           (tr ++ [Fetch first; Console Err ("❌ 发送 Telegram 消息失败: " ++ err)])%list)
    end.
Proof.
  unfold sendTGMessage. rewrite token_set, chat_set.
  unfold try_catch, bind, console, emit, ret, throw.
  rewrite sendJson_run. fold first n. unfold attempt_error.
  destruct (settled (network h n first)) as [r|reason];
    [destruct (ok r)|]; simpl; rewrite <- ?app_assoc; simpl; try reflexivity.
  all: match goal with |- context [String.prefix ?a ?b] => destruct (String.prefix a b) end;
    [|simpl; rewrite <- ?app_assoc; reflexivity].
  all: rewrite sendJson_run, !requests_app, !length_app; simpl;
    rewrite ?Nat.add_0_r, Nat.add_1_r; fold second n;
    (destruct (settled (network h (S n) second)) as [r'|reason'];
     [destruct (ok r')|]); simpl; rewrite <- ?app_assoc; reflexivity.
Qed.

End Send.

Lemma sendTGMessage_unconfigured : forall h message env tr,
  configured (TG_BOT_TOKEN env) = None \/ configured (TG_CHAT_ID env) = None ->
  sendTGMessage h message env tr
  = (Ret JNull,
     (tr ++ [Console Warn "⚠️ TG_BOT_TOKEN 或 TG_CHAT_ID 未设置，跳过 Telegram 消息发送"])%list).
Proof.
  intros h message env tr H. unfold sendTGMessage.
  destruct (configured (TG_BOT_TOKEN env)); destruct (configured (TG_CHAT_ID env));
    try reflexivity.
  destruct H; discriminate.
Qed.

(** C4, as the code has it.  A send never throws and returns one of two
    values.  With the token or the chat id unset it returns [null] after a
    warning and without a request.  Otherwise it makes its requests and
    returns [true] exactly when its last attempt met no error, that is
    when the message was delivered; when that attempt failed it returns
    [null] too, and the diagnostic goes to [console.error] only. *)
Theorem sendTGMessage_returns_true_or_null : forall h message env tr,
  match configured (TG_BOT_TOKEN env), configured (TG_CHAT_ID env) with
  | Some botToken, Some chatId =>
      exists evs,
        requests evs <> []
        /\ match send_error h message botToken chatId (List.length (requests tr)) with
           | None =>
               sendTGMessage h message env tr = (Ret (JBool true), (tr ++ evs)%list)
           | Some diagnostic =>
               sendTGMessage h message env tr
               = (Ret JNull,
                  (tr ++ evs
                      ++ [Console Err ("❌ 发送 Telegram 消息失败: " ++ diagnostic)])%list)
           end
  | _, _ =>
      sendTGMessage h message env tr
      = (Ret JNull,
         (tr ++ [Console Warn "⚠️ TG_BOT_TOKEN 或 TG_CHAT_ID 未设置，跳过 Telegram 消息发送"])%list)
      /\ requests (snd (sendTGMessage h message env tr)) = requests tr
  end.
Proof.
  intros h message env tr.
  destruct (configured (TG_BOT_TOKEN env)) as [botToken|] eqn:Htoken.
  2: { rewrite sendTGMessage_unconfigured by (left; exact Htoken).
       split; [reflexivity|]. simpl. rewrite requests_app. apply app_nil_r. }
  destruct (configured (TG_CHAT_ID env)) as [chatId|] eqn:Hchat.
  2: { rewrite sendTGMessage_unconfigured by (right; exact Hchat).
       split; [reflexivity|]. simpl. rewrite requests_app. apply app_nil_r. }
  rewrite (sendTGMessage_run h message env tr botToken chatId Htoken Hchat).
  unfold send_error.
  destruct (attempt_error _) as [err|].
  - destruct (String.prefix "HTTP 400" err).
    + destruct (attempt_error _) as [err'|].
      * eexists [_; _; _]. split; [|reflexivity]; simpl; discriminate.
      * eexists [_; _; _; _]. split; [|reflexivity]; simpl; discriminate.
    + eexists [_]. split; [|reflexivity]; simpl; discriminate.
  - eexists [_; _]. split; [|reflexivity]; simpl; discriminate.
Qed.

(** C4, as it is worded, fails: a send that is skipped for want of a token
    and a send whose request the network refuses return the same value, so
    no reading of the returned value tells them apart. *)
Lemma skipped_and_failed_return_the_same :
  ~ result_tells_apart
      (sendTGMessage (test_host [] []) "report"
                     {| TG_BOT_TOKEN := None; TG_CHAT_ID := Some "42";
                        KOYEB_ACCOUNTS := None |} [])
      (sendTGMessage (test_host [] []) "report" (test_env "[]") []).
Proof.
  unfold result_tells_apart. intros (classify & Hskipped & Hfailed).
  vm_compute in Hskipped, Hfailed.
  specialize (Hskipped _ _ eq_refl). specialize (Hfailed _ _ eq_refl).
  congruence.
Qed.

(** C5, as the code has it.  After a first response that is not [ok], the
    plain-text retry is made exactly when the status is 400: then there
    are two requests, the second without [parse_mode], and the send is
    delivered exactly when the second response is [ok].  For any other
    status, and for a network error whose message does not start with
    "HTTP 400", there is a single request and the send is not delivered. *)
Theorem retry_exactly_on_status_400 : forall h message env tr botToken chatId,
  configured (TG_BOT_TOKEN env) = Some botToken ->
  configured (TG_CHAT_ID env) = Some chatId ->
  let first := json_post h (sendMessage_url botToken) (markdown_payload chatId message) in
  let second := json_post h (sendMessage_url botToken) (plain_payload chatId message) in
  let n := List.length (requests tr) in
  let run := sendTGMessage h message env tr in
  (forall r1,
      settled (network h n first) = Resolved r1 ->
      ok r1 = false ->
      100 <= status r1 <= 599 ->
      (status r1 = 400 ->
       requests (snd run) = (requests tr ++ [first; second])%list
       /\ (fst run = Ret (JBool true) \/ fst run = Ret JNull)
       /\ (fst run = Ret (JBool true)
           <-> exists r2, settled (network h (S n) second) = Resolved r2 /\ ok r2 = true))
      /\ (status r1 <> 400 ->
          requests (snd run) = (requests tr ++ [first])%list /\ fst run = Ret JNull))
  /\ (forall reason,
         settled (network h n first) = Rejected reason ->
         String.prefix "HTTP 400" reason = false ->
         requests (snd run) = (requests tr ++ [first])%list /\ fst run = Ret JNull).
Proof.
  intros h message env tr botToken chatId Htoken Hchat first second n run.
  subst run. rewrite (sendTGMessage_run h message env tr botToken chatId Htoken Hchat).
  fold first second n. split.
  - intros r1 Hreply Hok Hstatus. rewrite Hreply. simpl. rewrite Hok.
    rewrite http_error_400 by lia.
    split; intro Hs.
    + apply Nat.eqb_eq in Hs. rewrite Hs.
      destruct (settled (network h (S n) second)) as [r2|reason] eqn:Hsecond; simpl.
      * destruct (ok r2) eqn:Hok2; simpl; rewrite requests_app; simpl.
        -- split; [reflexivity|]. split; [left; reflexivity|].
           split; [intros _; exists r2; split; [reflexivity | exact Hok2] | reflexivity].
        -- split; [reflexivity|]. split; [right; reflexivity|].
           split; [discriminate|]. intros (r & Hr & Hokr). congruence.
      * rewrite requests_app; simpl.
        split; [reflexivity|]. split; [right; reflexivity|].
        split; [discriminate|]. intros (r & Hr & _). congruence.
    + apply Nat.eqb_neq in Hs. rewrite Hs. simpl. rewrite requests_app. split; reflexivity.
  - intros reason Hreply Hprefix. rewrite Hreply. simpl. rewrite Hprefix. simpl.
    rewrite requests_app. split; reflexivity.
Qed.

(** C5, as it is worded, fails: the first response below is a 403, a 4xx
    client error, and the send makes one request and no retry. *)
Lemma no_retry_after_403 :
  let h := test_host [] [replies_with 403 None "Forbidden"; replies_with 200 None "{}"] in
  let first := json_post h (sendMessage_url "123:abc") (markdown_payload "42" "report") in
  (exists r, settled (network h 0 first) = Resolved r /\ 400 <= status r <= 499)
  /\ List.length (requests (snd (sendTGMessage h "report" (test_env "[]") []))) = 1.
Proof.
  split.
  - eexists. split; [reflexivity|]. simpl. lia.
  - vm_compute. reflexivity.
Qed.

Lemma retry_exactly_on_status_400_witness :
  let h := test_host [] [replies_with 400 None "Bad Request: can't parse entities";
                         replies_with 200 None "{}"] in
  let env := test_env "[]" in
  let first := json_post h (sendMessage_url "123:abc") (markdown_payload "42" "*report") in
  let second := json_post h (sendMessage_url "123:abc") (plain_payload "42" "*report") in
  requests (snd (sendTGMessage h "*report" env [])) = [first; second]
  /\ fst (sendTGMessage h "*report" env []) = Ret (JBool true).
Proof.
  intros h env first second.
  destruct (retry_exactly_on_status_400 h "*report" env [] "123:abc" "42"
              eq_refl eq_refl) as [Hresponse _].
  destruct (Hresponse {| status := 400; content_type := None; set_cookie := None;
                         text := "Bad Request: can't parse entities" |}
                      eq_refl eq_refl ltac:(simpl; lia)) as [H400 _].
  destruct (H400 eq_refl) as (Hrequests & _ & Hdelivered).
  split; [exact Hrequests|].
  apply Hdelivered. eexists. split; reflexivity.
Defined.

(* ------------------------------------------------------------------ *)
(** * [loginKoyeb]                                                     *)
(* ------------------------------------------------------------------ *)

(** C8.  With an empty email or an empty password [loginKoyeb] returns
    [[false, "邮箱或密码为空"]] at once: the trace is unchanged, so no
    request is made. *)
Theorem login_rejects_empty_credentials : forall h email password tr,
  email = "" \/ password = JStr "" ->
  loginKoyeb h email password tr = (Ret (false, "邮箱或密码为空"), tr).
Proof.
  intros h e p tr [-> | ->]; unfold loginKoyeb; simpl.
  - reflexivity.
  - destruct (truthy_str e); reflexivity.
Qed.

Lemma login_rejects_empty_credentials_witness :
  ("" = "" \/ JStr "x" = JStr "")
  /\ loginKoyeb (test_host [] []) "" (JStr "x") [] = (Ret (false, "邮箱或密码为空"), [])
  /\ loginKoyeb (test_host [] []) "x" (JStr "") [] = (Ret (false, "邮箱或密码为空"), []).
Proof.
  split; [left; reflexivity|]. split.
  - apply (login_rejects_empty_credentials (test_host [] []) "" (JStr "x") []).
    left; reflexivity.
  - apply (login_rejects_empty_credentials (test_host [] []) "x" (JStr "") []).
    right; reflexivity.
Defined.

Lemma preflight_run : forall h tr,
  exists cookie evs,
    preflight h tr = (Ret cookie, (tr ++ Fetch preflight_request :: evs)%list)
    /\ timeline evs = [].
Proof.
  intros. unfold preflight, try_catch, bind. rewrite await_fetch_run.
  destruct (settled _) as [r|reason].
  - exists (if ok r
            then match set_cookie r with
                 | Some c => if truthy_str c then before_semicolon c else ""
                 | None => ""
                 end
            else ""), [].
    split; [|reflexivity].
    destruct (ok r); [|reflexivity].
    destruct (set_cookie r) as [c|]; [|reflexivity].
    destruct (truthy_str c); reflexivity.
  - exists "", [Console Warn ("⚠️ 预检登录页失败，继续尝试登录: " ++ reason)].
    split; [|reflexivity].
    unfold console, emit, ret, bind. rewrite <- app_assoc. reflexivity.
Qed.

(** Building the failure message makes no request and logs nothing. *)
Lemma failure_message_pure : forall h r tr, snd (failure_message h r tr) = tr.
Proof.
  intros. unfold failure_message, json_diagnostic, response_json, bind, lift, ret, throw.
  destruct (is_json_typed r).
  - destruct (JSON_parse h (text r)) as [v|]; [|reflexivity].
    destruct (member (Some v) "message"); [|reflexivity].
    destruct (status r =? 403)%nat; reflexivity.
  - destruct (text_diagnostic h r); destruct (status r =? 403)%nat; reflexivity.
Qed.

(** A login with credentials never throws; its first event is the GET of
    the login page, and it neither pauses nor fetches that page again. *)
Lemma loginKoyeb_run : forall h e p tr,
  truthy_str e = true -> truthy p = true ->
  exists result evs,
    loginKoyeb h e p tr = (Ret result, (tr ++ Fetch preflight_request :: evs)%list)
    /\ timeline evs = [].
Proof.
  intros h e p tr He Hp. unfold loginKoyeb. rewrite He, Hp. simpl.
  unfold try_catch, bind.
  destruct (preflight_run h tr) as (cookie & evs & -> & Hevs).
  unfold fetch_with_timeout, bind, fetch.
  match goal with
  | |- context [network h ?n ?r] => set (reply := network h n r); set (req := r)
  end.
  assert (Hdone : forall more, timeline more = [] ->
                    timeline (evs ++ Fetch req :: more)%list = []).
  { intros more Hmore. rewrite timeline_app, Hevs. simpl. exact Hmore. }
  destruct (latency reply <? 30000)%N.
  - destruct (settled reply) as [r|reason].
    + unfold ret. destruct (ok r); simpl.
      * exists (true, "登录成功"), (evs ++ [Fetch req])%list.
        split; [rewrite <- app_assoc; reflexivity | apply Hdone; reflexivity].
      * pose proof (failure_message_pure h r
                      ((tr ++ Fetch preflight_request :: evs) ++ [Fetch req])%list) as Hpure.
        destruct (failure_message h r _) as [[m|x] t]; simpl in Hpure; subst t;
          eexists _, (evs ++ [Fetch req])%list;
          (split; [rewrite <- app_assoc; reflexivity | apply Hdone; reflexivity]).
    + unfold throw, ret. eexists _, (evs ++ [Fetch req])%list.
      split; [rewrite <- app_assoc; reflexivity | apply Hdone; reflexivity].
  - unfold emit, throw, ret. eexists _, (evs ++ [Fetch req; Abort])%list.
    split; [rewrite <- !app_assoc; reflexivity | apply Hdone; reflexivity].
Qed.

(** The diagnostic taken from a body that is not JSON has at most 200
    characters. *)
Lemma text_diagnostic_capped : forall h r d,
  text_diagnostic h r = Some d -> String.length d <= 200.
Proof.
  intros h r d. unfold text_diagnostic.
  destruct (truthy_str _); [|discriminate].
  intros H. assert (E : d = slice0 200 (trim h (text r))) by congruence.
  rewrite E. apply slice0_length.
Qed.

(** C6 fails on the JSON branch: the response below is a 422 of type
    [application/json] whose [message] has 300 characters, and the failure
    message of the login carries all 300 of them. *)
Theorem json_diagnostic_is_not_capped :
  let errorData := JObj [("message", JStr (replicate 300 "x"))] in
  let h := test_host [(plain_stringify errorData, errorData)]
                     [replies_with 200 None "";
                      replies_with 422 (Some "application/json") (plain_stringify errorData)] in
  fst (loginKoyeb h "a@b.c" (JStr "secret") [])
  = Ret (false, "HTTP状态码 422 - " ++ replicate 300 "x")
  /\ String.length (replicate 300 "x") = 300.
Proof. split; vm_compute; reflexivity. Qed.

(* ------------------------------------------------------------------ *)
(** * The batch loop                                                   *)
(* ------------------------------------------------------------------ *)

Lemma successes_cons : forall it items,
  successes (it :: items) = successes [it] + successes items.
Proof. intros. unfold successes. simpl. destruct (is_success it); reflexivity. Qed.

Lemma successes_failures : forall items,
  successes items + failures items = List.length items.
Proof.
  induction items as [|it items IH]; [reflexivity|].
  unfold successes, failures in *. simpl. destruct (is_success it); simpl; lia.
Qed.

Lemma filter_split_length : forall (A : Type) (f : A -> bool) (l : list A),
  List.length (filter f l) + List.length (filter (fun x => negb (f x)) l) = List.length l.
Proof.
  induction l as [|x l IH]; [reflexivity|].
  simpl. destruct (f x); simpl; lia.
Qed.

Lemma usable_credentials : forall h r,
  usable h r = true ->
  truthy_str (login_name h r) = true /\ truthy (login_secret r) = true.
Proof.
  intros h [[e|] [p|]]; unfold usable, login_name, login_secret; simpl;
    try discriminate.
  intros H. apply andb_prop in H. exact H.
Qed.

(** A record without an email or a password, or with an empty one, is
    not usable. *)
Lemma unusable_when_field_missing : forall h r,
  email r = None \/ email r = Some "" \/ password r = None \/ password r = Some "" ->
  usable h r = false.
Proof.
  intros h [e p]; unfold usable; simpl.
  intros [-> | [-> | [-> | ->]]]; try reflexivity.
  - rewrite trim_empty. destruct p; reflexivity.
  - destruct e; reflexivity.
  - destruct e; [|reflexivity]. apply andb_false_r.
Qed.

Section Loop.

Variable h : Host.
Variable login : string -> json -> M (bool * string).

Lemma attempt_run : forall total index e p results sc tr,
  let call := login e p (before_login total index e tr) in
  attempt login total index e p (results, sc) tr
  = (Ret ((results ++ [render (item_of e (fst call))])%list,
          sc + successes [item_of e (fst call)]),
     snd call).
Proof.
  intros. subst call. unfold attempt, try_catch, bind, console, emit, ret, before_login.
  destruct (0 <? index)%nat; simpl; rewrite <- ?app_assoc; simpl;
    match goal with
    | |- context [login e p ?t] => destruct (login e p t) as [[[[] m]|x] t']
    end;
    simpl; unfold successes; simpl; rewrite ?Nat.add_0_r, ?Nat.add_1_r; reflexivity.
Qed.

Lemma at_index_middle : forall pre r rs,
  at_index (accounts_json (pre ++ r :: rs)) (List.length pre) = Some (json_of_record r).
Proof.
  intros. unfold accounts_json, at_index.
  rewrite map_app, nth_error_app2; rewrite length_map; [|lia].
  rewrite Nat.sub_diag. reflexivity.
Qed.

(** One turn of the loop, on a record. *)
Lemma iteration_record : forall pre r rs total st tr,
  iteration h login (accounts_json (pre ++ r :: rs)) total (List.length pre) st tr
  = if usable h r
    then attempt login total (List.length pre) (login_name h r) (login_secret r) st tr
    else (Ret st, (tr ++ [skip_warning h r])%list).
Proof.
  intros. unfold iteration. rewrite at_index_middle.
  unfold bind, lift, usable, login_name, login_secret, skip_warning, json_of_record.
  destruct r as [[e|] [p|]]; simpl; try reflexivity.
  unfold truthy_str. destruct (trim h e =? ""); simpl; [reflexivity|].
  destruct (p =? ""); reflexivity.
Qed.

Lemma step_over : forall pre (r : AccountRecord) rs,
  (pre ++ r :: rs)%list = ((pre ++ [r]) ++ rs)%list
  /\ S (List.length pre) = List.length (pre ++ [r])%list.
Proof.
  intros. rewrite <- app_assoc, length_app. simpl. split; [reflexivity | lia].
Qed.

(** The loop over records never throws.  It adds one item for each
    usable record, in order, and each item is what the login call of its
    record did. *)
Lemma for_loop_records : forall rs pre total results sc tr,
  exists items tr',
    for_loop h login (accounts_json (pre ++ rs)) total (List.length rs) (List.length pre)
             (results, sc) tr
    = (Ret ((results ++ map render items)%list, sc + successes items), tr')
    /\ Forall2 (fun r it =>
                  exists tr0,
                    it = item_of (login_name h r)
                                 (fst (login (login_name h r) (login_secret r) tr0)))
               (filter (usable h) rs) items.
Proof.
  induction rs as [|r rs IH]; intros.
  - exists [], tr. simpl. rewrite app_nil_r, Nat.add_0_r. split; [reflexivity|constructor].
  - simpl for_loop. unfold bind. rewrite iteration_record.
    destruct (step_over pre r rs) as [-> ->].
    simpl filter. destruct (usable h r).
    + rewrite attempt_run. cbv zeta.
      match goal with |- context [login ?e ?p ?t] => set (call := login e p t) end.
      destruct (IH (pre ++ [r])%list total
                   (results ++ [render (item_of (login_name h r) (fst call))])%list
                   (sc + successes [item_of (login_name h r) (fst call)]) (snd call))
        as (items & tr' & Hrun & Hitems).
      exists (item_of (login_name h r) (fst call) :: items), tr'.
      rewrite Hrun. split.
      * rewrite <- app_assoc, (successes_cons _ items), Nat.add_assoc. reflexivity.
      * constructor; [|exact Hitems]. eexists. reflexivity.
    + destruct (IH (pre ++ [r])%list total results sc (tr ++ [skip_warning h r])%list)
        as (items & tr' & Hrun & Hitems).
      exists items, tr'. split; assumption.
Qed.

(** When no record is usable the loop only logs its warnings. *)
Lemma for_loop_skips : forall rs pre total st tr,
  Forall (fun r => usable h r = false) rs ->
  for_loop h login (accounts_json (pre ++ rs)) total (List.length rs) (List.length pre) st tr
  = (Ret st, (tr ++ map (skip_warning h) rs)%list).
Proof.
  induction rs as [|r rs IH]; intros pre total st tr Hrs.
  - simpl. rewrite app_nil_r. reflexivity.
  - inversion Hrs as [|? ? Hr Hrest]; subst.
    simpl for_loop. unfold bind. rewrite iteration_record, Hr.
    destruct (step_over pre r rs) as [-> ->].
    rewrite IH by exact Hrest. rewrite <- app_assoc. reflexivity.
Qed.

(** The pauses and login calls of the loop follow the positions of the
    usable records, for a login procedure that shows as one call. *)
Lemma for_loop_timeline : forall rs pre total st tr,
  (forall e p t, truthy_str e = true -> truthy p = true ->
                 timeline (snd (login e p t)) = (timeline t ++ [LoginCall])%list) ->
  timeline (snd (for_loop h login (accounts_json (pre ++ rs)) total
                          (List.length rs) (List.length pre) st tr))
  = (timeline tr ++ schedule (usable h) (List.length pre) rs)%list.
Proof.
  induction rs as [|r rs IH]; intros pre total [results sc] tr Hlogin.
  - simpl. rewrite app_nil_r. reflexivity.
  - simpl for_loop. simpl schedule. unfold bind. rewrite iteration_record.
    destruct (step_over pre r rs) as [-> ->].
    destruct (usable h r) eqn:Hr.
    + rewrite attempt_run. cbv zeta.
      destruct (usable_credentials h r Hr) as [He Hp].
      rewrite IH by exact Hlogin. rewrite (Hlogin _ _ _ He Hp).
      unfold before_login. rewrite timeline_app.
      destruct (0 <? List.length pre)%nat; simpl; rewrite <- !app_assoc; reflexivity.
    + rewrite IH by exact Hlogin. rewrite timeline_app. simpl.
      rewrite app_nil_r. reflexivity.
Qed.

(** ** From the configuration to the report *)

Variables (env : Env) (s : string) (rs : list AccountRecord).
Hypothesis accounts_set : configured (KOYEB_ACCOUNTS env) = Some s.
Hypothesis accounts_parse : JSON_parse h s = Parsed (accounts_json rs).

Lemma validate_records : forall tr,
  validateEnvVariables h env tr = (Ret (accounts_json rs), tr).
Proof.
  intros. unfold validateEnvVariables. rewrite accounts_set, accounts_parse. reflexivity.
Qed.

Lemma runAccounts_none : forall tr,
  rs = [] ->
  runAccounts h login env tr = (Throw (Error "❌ 没有找到有效的 Koyeb 账户信息"), tr).
Proof.
  intros tr Hrs. unfold runAccounts, bind. rewrite validate_records, Hrs. reflexivity.
Qed.

Lemma runAccounts_some : forall tr,
  rs <> [] ->
  runAccounts h login env tr
  = (let (o, tr') := for_loop h login (accounts_json rs) (total_of (List.length rs))
                              (List.length rs) 0 ([], 0) tr in
     match o with
     | Ret st => (Ret (total_of (List.length rs), st), tr')
     | Throw e => (Throw e, tr')
     end).
Proof.
  intros tr Hrs. unfold runAccounts, bind. rewrite validate_records.
  assert (Hlen : length_of (accounts_json rs) = total_of (List.length rs)).
  { unfold accounts_json, length_of, total_of. rewrite length_map. reflexivity. }
  rewrite !Hlen. unfold accounts_json at 1.
  unfold total_of at 1, is_zero.
  destruct (Z.eqb_spec (Z.of_nat (List.length rs)) 0) as [E|_].
  { destruct rs; [contradiction Hrs; reflexivity | discriminate]. }
  cbn [truthy negb orb]. cbv beta.
  assert (Hiter : iterations h (total_of (List.length rs)) = List.length rs).
  { unfold iterations, ToNumber, total_of. apply Nat2Z.id. }
  rewrite Hiter. unfold ret.
  destruct (for_loop _ _ _ _ _ _ _ _) as [[st|e] tr']; reflexivity.
Qed.

Lemma runAccounts_records : forall tr,
  rs <> [] ->
  exists items tr',
    runAccounts h login env tr
    = (Ret (total_of (List.length rs), (map render items, successes items)), tr')
    /\ Forall2 (fun r it =>
                  exists tr0,
                    it = item_of (login_name h r)
                                 (fst (login (login_name h r) (login_secret r) tr0)))
               (filter (usable h) rs) items.
Proof.
  intros tr Hrs. rewrite runAccounts_some by exact Hrs.
  destruct (for_loop_records rs [] (total_of (List.length rs)) [] 0 tr)
    as (items & tr' & Hrun & Hitems).
  simpl in Hrun. rewrite Hrun. exists items, tr'. split; [reflexivity | exact Hitems].
Qed.

End Loop.

(* ------------------------------------------------------------------ *)
(** * The report                                                       *)
(* ------------------------------------------------------------------ *)

Lemma tgMessage_records : forall h n sc lines,
  sc <= n ->
  tgMessage h (total_of n) (lines, sc) = report_text h n sc (n - sc) lines.
Proof.
  intros h n sc lines Hsc.
  unfold tgMessage, summary, report_text, summary_text, total_of, ToNumber,
         ToString_value, ToString, show_nat.
  rewrite Nat2Z.inj_sub by exact Hsc. reflexivity.
Qed.

Lemma item_account_of : forall a o, item_account (item_of a o) = a.
Proof. intros a [[[] m]|e]; reflexivity. Qed.

Lemma items_accounts : forall h (login : string -> json -> M (bool * string)) rs items,
  Forall2 (fun r it =>
             exists tr0 : Trace,
               it = item_of (login_name h r)
                            (fst (login (login_name h r) (login_secret r) tr0)))
          (filter (usable h) rs) items ->
  map item_account items = map (login_name h) (filter (usable h) rs).
Proof.
  intros h login rs items H.
  induction H as [|r it rest items' [tr0 Hit] _ IH]; [reflexivity|].
  simpl. rewrite IH, Hit, item_account_of. reflexivity.
Qed.

Lemma successes_le_length : forall items, successes items <= List.length items.
Proof. intros. pose proof (successes_failures items). lia. Qed.

Section Report.

Variables (h : Host) (login : string -> json -> M (bool * string)).
Variables (env : Env) (s : string) (rs : list AccountRecord).
Hypothesis accounts_set : configured (KOYEB_ACCOUNTS env) = Some s.
Hypothesis accounts_parse : JSON_parse h s = Parsed (accounts_json rs).

(** What [buildReport] does on a list of records that is not empty. *)
Lemma buildReport_records : forall tr,
  rs <> [] ->
  exists items tr',
    Forall2 (fun r it =>
               exists tr0,
                 it = item_of (login_name h r)
                              (fst (login (login_name h r) (login_secret r) tr0)))
            (filter (usable h) rs) items
    /\ buildReport h login env tr
       = (match items with
          | [] => Throw (Error "❌ 没有任何账户处理结果")
          | _ :: _ =>
              Ret (report_text h (List.length rs) (successes items)
                               (List.length rs - successes items) (map render items))
          end, tr').
Proof.
  intros tr Hrs.
  destruct (runAccounts_records h login env s rs accounts_set accounts_parse tr Hrs)
    as (items & tr' & Hrun & Hitems).
  exists items, tr'. split; [exact Hitems|].
  unfold buildReport, bind. rewrite Hrun. cbn [fst]. rewrite length_map.
  destruct items as [|it items]; [reflexivity|].
  cbn [List.length Nat.eqb]. unfold ret. rewrite tgMessage_records; [reflexivity|].
  pose proof (Forall2_length Hitems) as Hlen.
  pose proof (filter_length_le (usable h) rs).
  pose proof (successes_le_length (it :: items)). lia.
Qed.

End Report.

(** C1, as the code has it.  A record is reported when its email is not
    empty once trimmed and its password is not empty.  For a list with at
    least one such record the run produces the report, whose lines are one
    per such record, in the order of the list. *)
Theorem report_has_one_line_per_usable_record : forall h login env s rs tr,
  configured (KOYEB_ACCOUNTS env) = Some s ->
  JSON_parse h s = Parsed (accounts_json rs) ->
  existsb (usable h) rs = true ->
  exists items tr',
    buildReport h login env tr
    = (Ret (report_text h (List.length rs) (successes items)
                        (List.length rs - successes items) (map render items)), tr')
    /\ map item_account items = map (login_name h) (filter (usable h) rs).
Proof.
  intros h login env s rs tr Hset Hparse Hsome.
  assert (Hrs : rs <> []) by (intros ->; discriminate).
  destruct (buildReport_records h login env s rs Hset Hparse tr Hrs)
    as (items & tr' & Hitems & Hrun).
  exists items, tr'. split; [|exact (items_accounts h login rs items Hitems)].
  rewrite Hrun. destruct items; [|reflexivity].
  apply existsb_exists in Hsome. destruct Hsome as (r & Hin & Hr).
  assert (Hfil : In r (filter (usable h) rs)) by (apply filter_In; split; assumption).
  inversion Hitems as [Hnil|]. rewrite <- Hnil in Hfil. contradiction.
Qed.

Lemma report_has_one_line_per_usable_record_witness :
  let rs := [account " " "x"; account " a@b.c " "secret"] in
  let h := test_host [(plain_stringify (accounts_json rs), accounts_json rs)]
                     [replies_with 200 None ""; replies_with 200 None "{}"] in
  let env := test_env (plain_stringify (accounts_json rs)) in
  exists items tr',
    buildReport h (loginKoyeb h) env []
    = (Ret (report_text h (List.length rs) (successes items)
                        (List.length rs - successes items) (map render items)), tr')
    /\ map item_account items = ["a@b.c"].
Proof.
  intros rs h env.
  exact (report_has_one_line_per_usable_record h (loginKoyeb h) env
           (plain_stringify (accounts_json rs)) rs [] eq_refl eq_refl eq_refl).
Defined.

(** C1, as it is worded, fails: both records below have an email and a
    password that are not empty, but the first email is blank, so the
    batch has one line and not two. *)
Lemma blank_email_gets_no_line :
  let rs := [account " " "x"; account "a@b.c" "secret"] in
  let h := test_host [(plain_stringify (accounts_json rs), accounts_json rs)]
                     [replies_with 200 None ""; replies_with 200 None "{}"] in
  let env := test_env (plain_stringify (accounts_json rs)) in
  existsb nonempty_fields rs = true
  /\ ~ one_line_per_record nonempty_fields h (loginKoyeb h) env rs.
Proof.
  intros rs h env. split; [reflexivity|].
  intros (total & results & sc & tr' & Hrun & Hlen).
  vm_compute in Hrun. inversion Hrun; subst. vm_compute in Hlen. discriminate.
Qed.

(** C2 fails on the code where reading an account throws.  The fields
    of an account are read before the [try] of its login, so an element
    that is [null], or whose email is a number, gets no line: the run
    throws the [TypeError], the account after it is never tried (the
    timeline has the one login call of the first account), and the handler
    logs the error in place of a report. *)
Theorem unreadable_account_stops_the_batch :
  let first := json_of_record (account "a@b.c" "secret") in
  let third := json_of_record (account "c@d.e" "hunter2") in
  let numbered := JObj [("email", JNum 12345); ("password", JStr "x")] in
  let replies := [replies_with 200 None ""; replies_with 200 None "{}";
                  replies_with 200 None ""; replies_with 200 None "{}";
                  replies_with 200 None "{}"] in
  let run := fun accounts =>
    let h := test_host [(plain_stringify accounts, accounts)] replies in
    let env := test_env (plain_stringify accounts) in
    (fst (buildReport h (loginKoyeb h) env []),
     timeline (snd (scheduledEventHandler h env [])),
     filter (fun ev => match ev with Console Err _ => true | _ => false end)
            (snd (scheduledEventHandler h env []))) in
  run (JArr [first; JNull; third])
  = (Throw (Error "Cannot read properties of null (reading 'email')"),
     [LoginCall],
     [Console Err "❌ 程序执行出错: Cannot read properties of null (reading 'email')"])
  /\ run (JArr [first; numbered; third])
     = (Throw (Error "account.email?.trim is not a function"),
        [LoginCall],
        [Console Err "❌ 程序执行出错: account.email?.trim is not a function"]).
Proof. split; vm_compute; reflexivity. Qed.

(** What the [try] of a login does catch: here the login procedure itself
    throws for B, and A, B and C each get their line. *)
Example three_accounts_one_crash :
  let rs := [account "a@x.io" "1"; account "b@x.io" "2"; account "c@x.io" "3"] in
  let h := test_host [(plain_stringify (accounts_json rs), accounts_json rs)] [] in
  fst (runAccounts h (crashing_for "b@x.io")
                   (test_env (plain_stringify (accounts_json rs))) [])
  = Ret (total_of 3,
         ([success_line "a@x.io"; exception_line "b@x.io" "boom"; success_line "c@x.io"],
          2)).
Proof. vm_compute. reflexivity. Qed.

Lemma warnings_make_no_request : forall h rs,
  requests (map (skip_warning h) rs) = [].
Proof. induction rs as [|r rs IH]; [reflexivity | exact IH]. Qed.

(** C3.  When the account variable is unset or empty, when the list is
    empty, and when no record of the list is usable, the run throws one of
    its three fatal errors and builds no report; no request is made. *)
Theorem nothing_to_report_is_fatal : forall h login env tr,
  (configured (KOYEB_ACCOUNTS env) = None
   \/ exists s rs,
       configured (KOYEB_ACCOUNTS env) = Some s
       /\ JSON_parse h s = Parsed (accounts_json rs)
       /\ Forall (fun r => usable h r = false) rs) ->
  exists reason tr',
    buildReport h login env tr = (Throw (Error reason), tr')
    /\ In reason fatal_messages
    /\ requests tr' = requests tr.
Proof.
  intros h login env tr [Hunset | (s & rs & Hset & Hparse & Hrs)].
  - exists "❌ KOYEB_ACCOUNTS 环境变量未设置或格式错误", tr.
    unfold buildReport, runAccounts, validateEnvVariables, bind. rewrite Hunset.
    split; [reflexivity|]. split; [left; reflexivity | reflexivity].
  - destruct rs as [|r rs].
    + exists "❌ 没有找到有效的 Koyeb 账户信息", tr.
      unfold buildReport, bind.
      rewrite (runAccounts_none h login env s [] Hset Hparse tr eq_refl).
      split; [reflexivity|]. split; [right; left; reflexivity | reflexivity].
    + exists "❌ 没有任何账户处理结果", (tr ++ map (skip_warning h) (r :: rs))%list.
      unfold buildReport, bind.
      rewrite (runAccounts_some h login env s (r :: rs) Hset Hparse tr) by discriminate.
      rewrite (for_loop_skips h login (r :: rs) [] _ _ tr Hrs).
      split; [reflexivity|]. split; [right; right; left; reflexivity|].
      rewrite requests_app, warnings_make_no_request. apply app_nil_r.
Qed.

Lemma nothing_to_report_is_fatal_witness :
  let rs := [{| email := None; password := Some "x" |}; account "  " "x"; account "a@b.c" ""] in
  let h := test_host [(plain_stringify (accounts_json rs), accounts_json rs)] [] in
  let env := test_env (plain_stringify (accounts_json rs)) in
  Forall (fun r => usable h r = false) rs
  /\ exists reason tr',
       buildReport h (loginKoyeb h) env [] = (Throw (Error reason), tr')
       /\ In reason fatal_messages
       /\ requests tr' = requests [].
Proof.
  intros rs h env.
  assert (Hrs : Forall (fun r => usable h r = false) rs)
    by (repeat constructor).
  split; [exact Hrs|].
  apply (nothing_to_report_is_fatal h (loginKoyeb h) env []).
  right. exists (plain_stringify (accounts_json rs)), rs.
  split; [reflexivity|]. split; [reflexivity | exact Hrs].
Defined.

(** C9.  The header shows the length of the list as the total and the
    total less the successes as the failures, so that the failures count
    the lines that are not successes and the records that were skipped;
    the lines are those of the usable records. *)
Theorem header_counts_every_record : forall h login env s rs tr report tr',
  configured (KOYEB_ACCOUNTS env) = Some s ->
  JSON_parse h s = Parsed (accounts_json rs) ->
  buildReport h login env tr = (Ret report, tr') ->
  exists items,
    map item_account items = map (login_name h) (filter (usable h) rs)
    /\ report = report_text h (List.length rs) (successes items)
                            (List.length rs - successes items) (map render items)
    /\ List.length rs - successes items
       = failures items + List.length (filter (fun r => negb (usable h r)) rs).
Proof.
  intros h login env s rs tr report tr' Hset Hparse Hrun.
  destruct rs as [|r rs].
  { unfold buildReport, bind in Hrun.
    rewrite (runAccounts_none h login env s [] Hset Hparse tr eq_refl) in Hrun.
    discriminate. }
  destruct (buildReport_records h login env s (r :: rs) Hset Hparse tr ltac:(discriminate))
    as (items & tr'' & Hitems & Hrun').
  rewrite Hrun' in Hrun. exists items.
  pose proof (Forall2_length Hitems) as Hlen.
  split; [exact (items_accounts h login (r :: rs) items Hitems)|].
  destruct items as [|it items]; [discriminate|].
  split; [congruence|].
  pose proof (filter_split_length _ (usable h) (r :: rs)).
  pose proof (successes_failures (it :: items)). lia.
Qed.

Lemma header_counts_every_record_witness :
  let rs := [account "" "x"; account "a@b.c" "secret"; account "c@d.e" "hunter2"] in
  let h := test_host [(plain_stringify (accounts_json rs), accounts_json rs)]
                     [replies_with 200 None ""; replies_with 200 None "{}";
                      replies_with 200 None ""; replies_with 401 None "Unauthorized"] in
  let env := test_env (plain_stringify (accounts_json rs)) in
  fst (buildReport h (loginKoyeb h) env [])
  = Ret (report_text h 3 1 2 [success_line "a@b.c";
                              failure_line "c@d.e" "HTTP状态码 401 - Unauthorized"])
  /\ exists items,
       map item_account items = ["a@b.c"; "c@d.e"]
       /\ List.length rs - successes items
          = failures items + List.length (filter (fun r => negb (usable h r)) rs).
Proof.
  intros rs h env.
  assert (Hrun : exists tr',
             buildReport h (loginKoyeb h) env []
             = (Ret (report_text h 3 1 2
                       [success_line "a@b.c";
                        failure_line "c@d.e" "HTTP状态码 401 - Unauthorized"]), tr'))
    by (eexists; vm_compute; reflexivity).
  destruct Hrun as [tr' Hrun].
  split; [rewrite Hrun; reflexivity|].
  destruct (header_counts_every_record h (loginKoyeb h) env
              (plain_stringify (accounts_json rs)) rs [] _ tr' eq_refl eq_refl Hrun)
    as (items & Hlen & _ & Hcount).
  exists items. split; assumption.
Defined.

(* ------------------------------------------------------------------ *)
(** * The handler and its timeline                                     *)
(* ------------------------------------------------------------------ *)

Lemma telegram_tick : forall h botToken payload,
  tick_of (Fetch (json_post h (sendMessage_url botToken) payload)) = [].
Proof. reflexivity. Qed.

Lemma timeline_cons : forall ev tr,
  timeline (ev :: tr) = (tick_of ev ++ timeline tr)%list.
Proof. reflexivity. Qed.

(** A send returns, and adds neither a pause nor a login call. *)
Lemma sendTGMessage_total : forall h message env tr,
  exists v evs,
    sendTGMessage h message env tr = (Ret v, (tr ++ evs)%list) /\ timeline evs = [].
Proof.
  intros h message env tr.
  destruct (configured (TG_BOT_TOKEN env)) as [botToken|] eqn:Htoken.
  2: { rewrite sendTGMessage_unconfigured by (left; exact Htoken).
       eexists _, [_]. split; reflexivity. }
  destruct (configured (TG_CHAT_ID env)) as [chatId|] eqn:Hchat.
  2: { rewrite sendTGMessage_unconfigured by (right; exact Hchat).
       eexists _, [_]. split; reflexivity. }
  rewrite (sendTGMessage_run h message env tr botToken chatId Htoken Hchat).
  destruct (attempt_error _) as [err|].
  - destruct (String.prefix "HTTP 400" err).
    + destruct (attempt_error _) as [err'|]; eexists _, [_; _; _; _];
        (split; [reflexivity|]); rewrite !timeline_cons, !telegram_tick; reflexivity.
    + eexists _, [_; _]. split; [reflexivity|].
      rewrite !timeline_cons, !telegram_tick. reflexivity.
  - eexists _, [_; _]. split; [reflexivity|].
    rewrite !timeline_cons, !telegram_tick. reflexivity.
Qed.

Lemma buildReport_trace : forall h login env tr,
  snd (buildReport h login env tr) = snd (runAccounts h login env tr).
Proof.
  intros. unfold buildReport, bind, ret, throw.
  destruct (runAccounts h login env tr) as [[[total st]|e] t]; [|reflexivity].
  destruct (List.length (fst st) =? 0)%nat; reflexivity.
Qed.

(** The handler never throws; after the batch it only logs and sends. *)
Lemma handler_total : forall h login env tr,
  exists evs,
    scheduledEventHandlerWith h login env tr
    = (Ret tt, (snd (runAccounts h login env tr) ++ evs)%list)
    /\ timeline evs = [].
Proof.
  intros. unfold scheduledEventHandlerWith, try_catch, bind, console, emit, ret.
  rewrite <- buildReport_trace.
  destruct (buildReport h login env tr) as [[report|e] t]; simpl snd.
  - destruct (sendTGMessage_total h report env (t ++ [Console Log report])%list)
      as (v & evs & -> & Hevs).
    exists (Console Log report :: evs). rewrite <- app_assoc.
    split; [reflexivity | exact Hevs].
  - destruct (sendTGMessage_total h ("❌ 程序执行出错: " ++ message_of e) env
                (t ++ [Console Err ("❌ 程序执行出错: " ++ message_of e)])%list)
      as (v & evs & -> & Hevs).
    exists (Console Err ("❌ 程序执行出错: " ++ message_of e) :: evs).
    rewrite <- app_assoc. split; [reflexivity | exact Hevs].
Qed.

Lemma loginKoyeb_timeline : forall h e p t,
  truthy_str e = true -> truthy p = true ->
  timeline (snd (loginKoyeb h e p t)) = (timeline t ++ [LoginCall])%list.
Proof.
  intros h e p t He Hp.
  destruct (loginKoyeb_run h e p t He Hp) as (result & evs & -> & Hevs).
  simpl snd. rewrite timeline_app. simpl. rewrite Hevs. reflexivity.
Qed.

(** C7, as the code has it.  The pause depends on the position of the
    record in the list and on nothing else: a login call is preceded by a
    pause of 5000 ms exactly when its record is not the first of the list,
    and there is no other pause. *)
Theorem pause_before_each_record_but_the_first : forall h env s rs tr,
  configured (KOYEB_ACCOUNTS env) = Some s ->
  JSON_parse h s = Parsed (accounts_json rs) ->
  timeline (snd (scheduledEventHandler h env tr))
  = (timeline tr ++ schedule (usable h) 0 rs)%list.
Proof.
  intros h env s rs tr Hset Hparse. unfold scheduledEventHandler.
  destruct (handler_total h (loginKoyeb h) env tr) as (evs & -> & Hevs).
  simpl snd. rewrite timeline_app, Hevs, app_nil_r.
  destruct rs as [|r rs].
  - rewrite (runAccounts_none h (loginKoyeb h) env s [] Hset Hparse tr eq_refl).
    simpl. rewrite app_nil_r. reflexivity.
  - rewrite (runAccounts_some h (loginKoyeb h) env s (r :: rs) Hset Hparse tr)
      by discriminate.
    pose proof (for_loop_timeline h (loginKoyeb h) (r :: rs) []
                  (total_of (List.length (r :: rs))) ([], 0) tr
                  (loginKoyeb_timeline h)) as Hloop.
    simpl app in Hloop. simpl List.length in Hloop at 3.
    destruct (for_loop _ _ _ _ _ _ _ _) as [[st|e] t]; exact Hloop.
Qed.

Lemma pause_before_each_record_but_the_first_witness :
  let rs := [account "a@b.c" "secret"; account "" "x"; account "c@d.e" "hunter2"] in
  let h := test_host [(plain_stringify (accounts_json rs), accounts_json rs)]
                     [replies_with 200 None ""; replies_with 200 None "{}";
                      replies_with 200 None ""; replies_with 200 None "{}"] in
  let env := test_env (plain_stringify (accounts_json rs)) in
  timeline (snd (scheduledEventHandler h env []))
  = [LoginCall; Pause 5000; LoginCall].
Proof.
  intros rs h env.
  exact (pause_before_each_record_but_the_first h env
           (plain_stringify (accounts_json rs)) rs [] eq_refl eq_refl).
Defined.

(** C7, as it is worded, fails: the first record below is skipped, and
    the only login call of the run, the first one made, follows a pause. *)
Lemma pause_before_the_first_call_made :
  let rs := [account "" "x"; account "a@b.c" "secret"] in
  let h := test_host [(plain_stringify (accounts_json rs), accounts_json rs)]
                     [replies_with 200 None ""; replies_with 200 None "{}"] in
  let env := test_env (plain_stringify (accounts_json rs)) in
  timeline (snd (scheduledEventHandler h env [])) = [Pause 5000; LoginCall]
  /\ ~ pauses_only_between_calls (timeline (snd (scheduledEventHandler h env []))).
Proof.
  intros rs h env.
  assert (E : timeline (snd (scheduledEventHandler h env [])) = [Pause 5000; LoginCall])
    by (vm_compute; reflexivity).
  split; [exact E|]. rewrite E. unfold pauses_only_between_calls. simpl. discriminate.
Qed.

(* ------------------------------------------------------------------ *)
(** * A configuration that is not an array                             *)
(* ------------------------------------------------------------------ *)

(** C10, as the code has it.  A configuration that parses to a value
    other than an array passes [validateEnvVariables].  When the value is
    falsy the run throws at the first check.  When it is truthy and has no
    [length] the loop makes no turn and the run throws at the check of the
    empty result list, without any event. *)
Theorem non_array_without_length_is_fatal : forall h login env s v tr,
  configured (KOYEB_ACCOUNTS env) = Some s ->
  JSON_parse h s = Parsed v ->
  is_array v = false ->
  validateEnvVariables h env tr = (Ret v, tr)
  /\ (truthy v = false ->
      buildReport h login env tr = (Throw (Error "❌ 没有找到有效的 Koyeb 账户信息"), tr))
  /\ (truthy v = true -> length_of v = None ->
      buildReport h login env tr = (Throw (Error "❌ 没有任何账户处理结果"), tr)).
Proof.
  intros h login env s v tr Hset Hparse _.
  assert (Hv : validateEnvVariables h env tr = (Ret v, tr)).
  { unfold validateEnvVariables. rewrite Hset, Hparse. reflexivity. }
  split; [exact Hv|].
  unfold buildReport, runAccounts, bind. rewrite Hv.
  split.
  - intros ->. reflexivity.
  - intros -> ->. reflexivity.
Qed.

Lemma non_array_without_length_is_fatal_witness :
  let h := test_host [("7", JNum 7); ("{}", JObj [])] [] in
  buildReport h (loginKoyeb h) (test_env "7") []
  = (Throw (Error "❌ 没有任何账户处理结果"), [])
  /\ buildReport h (loginKoyeb h) (test_env "{}") []
     = (Throw (Error "❌ 没有任何账户处理结果"), []).
Proof.
  intros h. split.
  - apply (non_array_without_length_is_fatal h (loginKoyeb h) (test_env "7") "7"
             (JNum 7) [] eq_refl eq_refl eq_refl); reflexivity.
  - apply (non_array_without_length_is_fatal h (loginKoyeb h) (test_env "{}") "{}"
             (JObj []) [] eq_refl eq_refl eq_refl); reflexivity.
Defined.

(** C10, as it is worded, fails: the object below is not an array, it
    passes validation, and its [length] and its property [0] make the loop
    log the account in, so the run ends with a report. *)
Lemma object_with_length_is_processed :
  let v := JObj [("length", JNum 1); ("0", json_of_record (account "a@b.c" "secret"))] in
  let h := test_host [(plain_stringify v, v)]
                     [replies_with 200 None ""; replies_with 200 None "{}"] in
  let env := test_env (plain_stringify v) in
  is_array v = false
  /\ validateEnvVariables h env [] = (Ret v, [])
  /\ fst (buildReport h (loginKoyeb h) env [])
     = Ret (tgMessage h (Some (JNum 1)) ([success_line "a@b.c"], 1))
  /\ ~ non_array_is_fatal h env.
Proof.
  intros v h env.
  split; [reflexivity|]. split; [reflexivity|]. split; [vm_compute; reflexivity|].
  intros Hclaim.
  destruct (Hclaim v [] eq_refl eq_refl) as [tr' Hfatal].
  vm_compute in Hfatal. discriminate.
Qed.


(* ------------------------------------------------------------------ *)
(** * Further properties of a login                                    *)
(* ------------------------------------------------------------------ *)

Lemma string_length_append : forall a b : string,
  String.length (a ++ b) = String.length a + String.length b.
Proof.
  induction a as [|c a IH]; intros b; [reflexivity|].
  change (String c a ++ b) with (String c (a ++ b)). simpl. rewrite IH. reflexivity.
Qed.

Lemma before_semicolon_cut : forall name rest,
  has_char ";" name = false ->
  before_semicolon (name ++ ";" ++ rest) = name.
Proof.
  induction name as [|c name IH]; intros rest Hname.
  - reflexivity.
  - simpl in Hname. apply orb_false_iff in Hname. destruct Hname as [Hc Hname].
    change (String c name ++ ";" ++ rest) with (String c (name ++ ";" ++ rest)).
    simpl. rewrite Hc, IH by exact Hname. reflexivity.
Qed.

Lemma preflight_eq : forall h tr,
  let s := settled (network h (List.length (requests tr)) preflight_request) in
  preflight h tr
  = (Ret (preflight_cookie s),
     (tr ++ Fetch preflight_request :: preflight_events s)%list).
Proof.
  intros. subst s. unfold preflight, try_catch, bind. rewrite await_fetch_run.
  unfold preflight_cookie, preflight_events.
  destruct (settled _) as [r|reason].
  - destruct (ok r); [|reflexivity].
    destruct (set_cookie r) as [c|]; [|reflexivity].
    destruct (truthy_str c); reflexivity.
  - unfold console, emit, ret. rewrite <- app_assoc. reflexivity.
Qed.

Lemma failure_message_eq : forall h r tr,
  failure_message h r tr = (failure_text h r, tr).
Proof.
  intros. unfold failure_text, failure_message, json_diagnostic, response_json,
            bind, lift, ret, throw.
  destruct (is_json_typed r).
  - destruct (JSON_parse h (text r)) as [v|]; [|reflexivity].
    destruct (member (Some v) "message"); [|reflexivity].
    destruct (status r =? 403)%nat; reflexivity.
  - destruct (text_diagnostic h r); destruct (status r =? 403)%nat; reflexivity.
Qed.

Lemma preflight_events_quiet : forall s, requests (preflight_events s) = [].
Proof. intros [r|reason]; reflexivity. Qed.

Section Login.

Variables (h : Host) (e : string) (p : json) (tr : Trace).
Hypothesis email_given : truthy_str e = true.
Hypothesis password_given : truthy p = true.

Let n := List.length (requests tr).
Let page := settled (network h n preflight_request).
Let req := login_request h (preflight_cookie page) (login_data h e p).
Let reply := network h (S n) req.

(** The whole of a login with credentials: two requests, the result read
    off the reply to the second. *)
Lemma loginKoyeb_eq :
  loginKoyeb h e p tr
  = (Ret (login_result h reply),
     (tr ++ Fetch preflight_request :: preflight_events page
         ++ Fetch req :: (if (latency reply <? 30000)%N then [] else [Abort]))%list).
Proof.
  unfold loginKoyeb. rewrite email_given, password_given.
  cbn [negb orb]. cbv beta. unfold try_catch, bind. rewrite preflight_eq. fold n page.
  fold (login_data h e p). fold req.
  unfold fetch_with_timeout, fetch, bind.
  assert (Hn : List.length (requests (tr ++ Fetch preflight_request
                                         :: preflight_events page)%list) = S n).
  { rewrite requests_app, length_app. simpl.
    rewrite preflight_events_quiet. simpl. fold n. lia. }
  rewrite Hn. fold reply. unfold login_result.
  destruct (latency reply <? 30000)%N.
  - destruct (settled reply) as [r|reason].
    + unfold ret. destruct (ok r); simpl.
      * rewrite <- app_assoc. reflexivity.
      * rewrite failure_message_eq.
        destruct (failure_text h r); rewrite <- app_assoc; reflexivity.
    + unfold throw, ret. rewrite <- app_assoc. reflexivity.
  - unfold emit, throw, ret. rewrite <- !app_assoc. reflexivity.
Qed.

End Login.

(** X1.  Called with a string for the email, as the handler calls it,
    and any JSON value for the password, [loginKoyeb] never throws,
    whatever the network does: it returns a pair, after at most two
    requests. *)
Theorem login_never_throws : forall h e p tr,
  exists result evs,
    loginKoyeb h e p tr = (Ret result, (tr ++ evs)%list)
    /\ List.length (requests evs) <= 2.
Proof.
  intros h e p tr.
  destruct (truthy_str e) eqn:He; [destruct (truthy p) eqn:Hp|].
  - rewrite (loginKoyeb_eq h e p tr He Hp). eexists _, _. split; [reflexivity|].
    simpl. rewrite requests_app, length_app, preflight_events_quiet.
    destruct (_ <? _)%N; simpl; lia.
  - exists (false, "邮箱或密码为空"), []. unfold loginKoyeb. rewrite He, Hp.
    rewrite app_nil_r. split; [reflexivity | simpl; lia].
  - exists (false, "邮箱或密码为空"), []. unfold loginKoyeb. rewrite He.
    rewrite app_nil_r. split; [reflexivity | simpl; lia].
Qed.

(** X2.  A login with credentials makes exactly two requests: the GET of
    the login page, then one POST to the login URL whose body is the
    payload with the trimmed email and the password.  This holds on every
    path: success, rejection, network error and timeout. *)
Theorem login_makes_two_requests : forall h e p tr,
  truthy_str e = true -> truthy p = true ->
  exists cookie,
    requests (snd (loginKoyeb h e p tr))
    = (requests tr ++ [preflight_request; login_request h cookie (login_data h e p)])%list
    /\ url (login_request h cookie (login_data h e p)) = loginUrl
    /\ method (login_request h cookie (login_data h e p)) = "POST"
    /\ body (login_request h cookie (login_data h e p))
       = Some (JSON_stringify h (JObj [("email", JStr (trim h e)); ("password", p)])).
Proof.
  intros h e p tr He Hp. rewrite (loginKoyeb_eq h e p tr He Hp).
  eexists. split; [|repeat split].
  cbn [snd]. rewrite requests_app. simpl. rewrite requests_app, preflight_events_quiet.
  destruct (_ <? _)%N; reflexivity.
Qed.

Lemma login_makes_two_requests_witness :
  let h := test_host [] [replies_with 500 None "oops"] in
  exists cookie,
    requests (snd (loginKoyeb h " a@b.c " (JStr "secret") []))
    = [preflight_request; login_request h cookie (login_data h " a@b.c " (JStr "secret"))]
    /\ url (login_request h cookie (login_data h " a@b.c " (JStr "secret"))) = loginUrl
    /\ method (login_request h cookie (login_data h " a@b.c " (JStr "secret"))) = "POST"
    /\ body (login_request h cookie (login_data h " a@b.c " (JStr "secret")))
       = Some (JSON_stringify h (JObj [("email", JStr "a@b.c"); ("password", JStr "secret")])).
Proof.
  intros h.
  exact (login_makes_two_requests h " a@b.c " (JStr "secret") [] eq_refl eq_refl).
Defined.

Section LoginReply.

Variables (h : Host) (e : string) (p : json) (tr : Trace).
Hypothesis email_given : truthy_str e = true.
Hypothesis password_given : truthy p = true.

Let n := List.length (requests tr).
Let page := settled (network h n preflight_request).
Let req := login_request h (preflight_cookie page) (login_data h e p).
Let reply := network h (S n) req.

(** X3.  When the login request has not settled after 30 s, the login
    fails with "请求超时" and the request is aborted, whatever the reply
    would have been. *)
Theorem login_times_out :
  (30000 <= latency reply)%N ->
  loginKoyeb h e p tr
  = (Ret (false, "请求超时"),
     (tr ++ Fetch preflight_request :: preflight_events page ++ [Fetch req; Abort])%list).
Proof.
  intros Hlate. rewrite (loginKoyeb_eq h e p tr email_given password_given).
  fold n page req reply. unfold login_result.
  apply N.ltb_ge in Hlate. rewrite Hlate. reflexivity.
Qed.

(** X4.  A login succeeds exactly when the login request is answered in
    time with a 2xx status; the body of that answer is not read. *)
Theorem login_succeeds_on_2xx :
  fst (loginKoyeb h e p tr) = Ret (true, "登录成功")
  <-> ((latency reply < 30000)%N
       /\ exists response, settled reply = Resolved response
                           /\ 200 <= status response <= 299).
Proof.
  rewrite (loginKoyeb_eq h e p tr email_given password_given).
  fold n page req reply. cbn [fst]. unfold login_result.
  destruct (N.ltb_spec (latency reply) 30000) as [Hin|Hout].
  - destruct (settled reply) as [response|reason].
    + destruct (ok response) eqn:Hok.
      * split; [intros _|reflexivity]. split; [exact Hin|].
        exists response. split; [reflexivity|]. unfold ok in Hok.
        apply andb_prop in Hok. destruct Hok as [H1 H2].
        apply Nat.leb_le in H1, H2. lia.
      * split.
        -- destruct (failure_text h response); discriminate.
        -- intros (_ & r & Hr & Hstatus). injection Hr as <-.
           unfold ok in Hok. apply andb_false_iff in Hok.
           destruct Hok as [H1|H1]; apply Nat.leb_gt in H1; lia.
    + split; [discriminate|]. intros (_ & r & Hr & _). discriminate.
  - split; [discriminate|]. intros (Hin & _). lia.
Qed.

Section Rejected.

Variable response : Response.
Hypothesis in_time : (latency reply < 30000)%N.
Hypothesis answered : settled reply = Resolved response.
Hypothesis not_ok : ok response = false.

Lemma login_rejected :
  fst (loginKoyeb h e p tr)
  = Ret (match failure_text h response with
         | Ret errorMsg => (false, errorMsg)
         | Throw x => (false, message_of x)
         end).
Proof.
  rewrite (loginKoyeb_eq h e p tr email_given password_given).
  fold n page req reply. cbn [fst]. unfold login_result.
  apply N.ltb_lt in in_time. rewrite in_time, answered, not_ok. reflexivity.
Qed.

(** X5.  After a rejection whose body is not typed as JSON and is ASCII
    once trimmed, the message is the status, then the trimmed body cut to
    its first 200 characters when it is not empty, then the note of a
    403. *)
Theorem login_reports_text_body :
  is_json_typed response = false ->
  ascii_text (trim h (text response)) = true ->
  let text := trim h (text response) in
  let base := "HTTP状态码 " ++ show_nat (status response) in
  fst (loginKoyeb h e p tr)
  = Ret (false,
         annotated response
           (if truthy_str text then base ++ " - " ++ slice0 200 text else base))
  /\ String.length (slice0 200 text) <= 200.
Proof.
  intros Htyped _ text base. split; [|apply slice0_length].
  rewrite login_rejected. unfold failure_text, failure_message, bind, ret.
  rewrite Htyped. unfold text_diagnostic, annotated. fold text base.
  destruct (truthy_str text); destruct (status response =? 403)%nat; reflexivity.
Qed.

(** X6.  After a rejection typed as JSON whose body parses to a value
    other than [null], the message is the status, then the [message] of
    the body when that is a string that is not empty, and the whole body
    re-encoded when there is no [message] or a falsy one, then the note of
    a 403. *)
Theorem login_reports_json_body : forall v,
  is_json_typed response = true ->
  JSON_parse h (text response) = Parsed v ->
  v <> JNull ->
  let base := "HTTP状态码 " ++ show_nat (status response) in
  (forall m,
      field v "message" = Some (JStr m) ->
      m <> "" ->
      fst (loginKoyeb h e p tr) = Ret (false, annotated response (base ++ " - " ++ m)))
  /\ (truthy_value (field v "message") = false ->
      fst (loginKoyeb h e p tr)
      = Ret (false, annotated response (base ++ " - " ++ JSON_stringify h v))).
Proof.
  intros v Htyped Hparse Hv base.
  assert (Hrun : fst (loginKoyeb h e p tr)
                 = Ret (false,
                        annotated response
                          (base ++ " - "
                           ++ (if truthy_value (field v "message")
                               then ToString_value (field v "message")
                               else JSON_stringify h v)))).
  { rewrite login_rejected. unfold failure_text, failure_message, bind, ret.
    rewrite Htyped. unfold json_diagnostic, response_json, bind, ret, lift.
    rewrite Hparse. unfold annotated.
    assert (Hm : member (Some v) "message" = Ret (field v "message")).
    { destruct v; try reflexivity. contradiction Hv; reflexivity. }
    rewrite Hm. cbn [fst].
    destruct (status response =? 403)%nat; reflexivity. }
  split.
  - intros m Hfield Hm. rewrite Hrun, Hfield.
    destruct m; [contradiction Hm; reflexivity | reflexivity].
  - intros Hfalsy. rewrite Hrun, Hfalsy. reflexivity.
Qed.

(** X7.  After a rejection typed as JSON whose body does not parse, the
    message is the parser's alone; when the body is [null] it is that of
    the [TypeError].  In both cases the status is left out. *)
Theorem login_loses_status_on_bad_json :
  is_json_typed response = true ->
  (forall reason,
      JSON_parse h (text response) = SyntaxError reason ->
      fst (loginKoyeb h e p tr) = Ret (false, reason))
  /\ (JSON_parse h (text response) = Parsed JNull ->
      fst (loginKoyeb h e p tr)
      = Ret (false, "Cannot read properties of null (reading 'message')")).
Proof.
  intros Htyped. split; [intros reason Hparse | intros Hparse];
    rewrite login_rejected; unfold failure_text, failure_message, bind, ret;
    rewrite Htyped; unfold json_diagnostic, response_json, bind, ret, lift, throw;
    rewrite Hparse; reflexivity.
Qed.

End Rejected.

(** X8.  A cookie offered by the login page is sent back without its
    attributes: of [name=value; Path=/; ...] the login request carries
    [name=value] in a [Cookie] header added to the fixed headers. *)
Theorem login_sends_harvested_cookie : forall preload pair attributes,
  page = Resolved preload ->
  ok preload = true ->
  set_cookie preload = Some (pair ++ ";" ++ attributes) ->
  pair <> "" ->
  has_char ";" pair = false ->
  requests (snd (loginKoyeb h e p tr))
  = (requests tr ++ [preflight_request; login_request h pair (login_data h e p)])%list
  /\ headers (login_request h pair (login_data h e p))
     = (login_headers ++ [("Cookie", pair)])%list.
Proof.
  intros preload pair attributes Hpage Hok Hcookie Hpair Hsemi.
  assert (Htruthy : truthy_str pair = true).
  { destruct pair; [contradiction Hpair; reflexivity | reflexivity]. }
  assert (Hc : preflight_cookie page = pair).
  { rewrite Hpage. unfold preflight_cookie. rewrite Hok, Hcookie.
    rewrite before_semicolon_cut by exact Hsemi.
    destruct pair; [discriminate|reflexivity]. }
  split.
  - rewrite (loginKoyeb_eq h e p tr email_given password_given).
    fold n page. rewrite Hc. cbn [snd].
    rewrite requests_app. simpl. rewrite requests_app, preflight_events_quiet.
    destruct (_ <? _)%N; reflexivity.
  - unfold login_request. cbn [headers]. rewrite Htruthy. reflexivity.
Qed.

(** X9.  The GET of the login page is best effort: when it fails, is not
    [ok], or offers no cookie, the login request is still made, with the
    fixed headers and no [Cookie], and the login returns what the reply to
    that request gives; a failed GET is logged as a warning. *)
Theorem login_goes_on_without_cookie :
  (match page with
   | Resolved preload => ok preload = false \/ set_cookie preload = None
   | Rejected _ => True
   end) ->
  let plain := login_request h "" (login_data h e p) in
  headers plain = login_headers
  /\ loginKoyeb h e p tr
     = (Ret (login_result h (network h (S n) plain)),
        (tr ++ Fetch preflight_request :: preflight_events page
            ++ Fetch plain
            :: (if (latency (network h (S n) plain) <? 30000)%N then [] else [Abort]))%list).
Proof.
  intros Hpage plain. split; [reflexivity|].
  assert (Hc : preflight_cookie page = "").
  { unfold preflight_cookie. destruct page as [preload|reason]; [|reflexivity].
    destruct Hpage as [-> | Hnone]; [reflexivity|].
    rewrite Hnone. destruct (ok preload); reflexivity. }
  rewrite (loginKoyeb_eq h e p tr email_given password_given).
  fold n page. rewrite Hc. reflexivity.
Qed.

End LoginReply.

Lemma login_times_out_witness :
  let h := test_host [] [replies_with 200 None "";
                         replies_after 45000 200 None None "{}"] in
  loginKoyeb h "a@b.c" (JStr "secret") []
  = (Ret (false, "请求超时"),
     [Fetch preflight_request;
      Fetch (login_request h "" (login_data h "a@b.c" (JStr "secret")));
      Abort]).
Proof.
  intros h.
  exact (login_times_out h "a@b.c" (JStr "secret") [] eq_refl eq_refl
           ltac:(vm_compute; discriminate)).
Defined.

Lemma login_succeeds_on_2xx_witness :
  let h := test_host [] [replies_with 200 None ""; replies_with 204 None ""] in
  fst (loginKoyeb h "a@b.c" (JStr "secret") []) = Ret (true, "登录成功").
Proof.
  intros h.
  apply (login_succeeds_on_2xx h "a@b.c" (JStr "secret") [] eq_refl eq_refl).
  split; [vm_compute; reflexivity|].
  eexists. split; [reflexivity|]. simpl. lia.
Defined.

Lemma login_reports_text_body_witness :
  let h := test_host [] [replies_with 200 None "";
                         replies_with 403 (Some "text/html") "  <html>blocked</html> "] in
  fst (loginKoyeb h "a@b.c" (JStr "secret") [])
  = Ret (false, "HTTP状态码 403 - <html>blocked</html>（可能需要验证码或 Cookie）").
Proof.
  intros h.
  destruct (login_reports_text_body h "a@b.c" (JStr "secret") [] eq_refl eq_refl
              {| status := 403; content_type := Some "text/html"; set_cookie := None;
                 text := "  <html>blocked</html> " |}
              ltac:(vm_compute; reflexivity) eq_refl eq_refl eq_refl eq_refl) as [Hrun _].
  rewrite Hrun. vm_compute. reflexivity.
Defined.

Lemma login_reports_json_body_witness :
  let errorData := JObj [("code", JStr "unauthenticated");
                         ("message", JStr "Invalid credentials")] in
  let h := test_host [(plain_stringify errorData, errorData)]
                     [replies_with 200 None "";
                      replies_with 401 (Some "application/json; charset=utf-8")
                                   (plain_stringify errorData)] in
  fst (loginKoyeb h "a@b.c" (JStr "secret") [])
  = Ret (false, "HTTP状态码 401 - Invalid credentials").
Proof.
  intros errorData h.
  destruct (login_reports_json_body h "a@b.c" (JStr "secret") [] eq_refl eq_refl
              {| status := 401; content_type := Some "application/json; charset=utf-8";
                 set_cookie := None; text := plain_stringify errorData |}
              ltac:(vm_compute; reflexivity) eq_refl eq_refl errorData
              eq_refl eq_refl ltac:(discriminate)) as [Hmessage _].
  rewrite (Hmessage "Invalid credentials" eq_refl ltac:(discriminate)).
  vm_compute. reflexivity.
Defined.

Lemma login_loses_status_on_bad_json_witness :
  let h := test_host [] [replies_with 200 None "";
                         replies_with 502 (Some "application/json") "<html>Bad Gateway</html>"] in
  fst (loginKoyeb h "a@b.c" (JStr "secret") []) = Ret (false, "Unexpected token in JSON").
Proof.
  intros h.
  destruct (login_loses_status_on_bad_json h "a@b.c" (JStr "secret") [] eq_refl eq_refl
              {| status := 502; content_type := Some "application/json"; set_cookie := None;
                 text := "<html>Bad Gateway</html>" |}
              ltac:(vm_compute; reflexivity) eq_refl eq_refl eq_refl) as [Hsyntax _].
  exact (Hsyntax "Unexpected token in JSON" eq_refl).
Defined.

Lemma login_sends_harvested_cookie_witness :
  let h := test_host [] [replies_after 80 200 None (Some "sid=abc123; Path=/; HttpOnly") "";
                         replies_with 200 None "{}"] in
  requests (snd (loginKoyeb h "a@b.c" (JStr "secret") []))
  = [preflight_request; login_request h "sid=abc123" (login_data h "a@b.c" (JStr "secret"))]
  /\ headers (login_request h "sid=abc123" (login_data h "a@b.c" (JStr "secret")))
     = (login_headers ++ [("Cookie", "sid=abc123")])%list.
Proof.
  intros h.
  exact (login_sends_harvested_cookie h "a@b.c" (JStr "secret") [] eq_refl eq_refl
           {| status := 200; content_type := None;
              set_cookie := Some "sid=abc123; Path=/; HttpOnly"; text := "" |}
           "sid=abc123" " Path=/; HttpOnly" eq_refl eq_refl eq_refl
           ltac:(discriminate) eq_refl).
Defined.

Lemma login_goes_on_without_cookie_witness :
  let h := test_host [] [] in
  let plain := login_request h "" (login_data h "a@b.c" (JStr "secret")) in
  loginKoyeb h "a@b.c" (JStr "secret") []
  = (Ret (false, "fetch failed"),
     [Fetch preflight_request;
      Console Warn "⚠️ 预检登录页失败，继续尝试登录: fetch failed";
      Fetch plain]).
Proof.
  intros h plain.
  destruct (login_goes_on_without_cookie h "a@b.c" (JStr "secret") [] eq_refl eq_refl I)
    as [_ Hrun].
  rewrite Hrun. vm_compute. reflexivity.
Defined.

(* ------------------------------------------------------------------ *)
(** * Further properties of a send and of the handler                  *)
(* ------------------------------------------------------------------ *)

(** X10.  A send makes at most two requests, and each is a JSON POST to
    the [sendMessage] endpoint of the configured bot; it neither pauses
    nor aborts. *)
Theorem send_makes_at_most_two_requests : forall h message env tr,
  exists v evs,
    sendTGMessage h message env tr = (Ret v, (tr ++ evs)%list)
    /\ List.length (requests evs) <= 2
    /\ Forall (telegram_event env) evs.
Proof.
  intros h message env tr.
  destruct (configured (TG_BOT_TOKEN env)) as [botToken|] eqn:Htoken.
  2: { rewrite sendTGMessage_unconfigured by (left; exact Htoken).
       eexists _, [_]. split; [reflexivity|]. split; [simpl; lia|].
       repeat constructor. }
  destruct (configured (TG_CHAT_ID env)) as [chatId|] eqn:Hchat.
  2: { rewrite sendTGMessage_unconfigured by (right; exact Hchat).
       eexists _, [_]. split; [reflexivity|]. split; [simpl; lia|].
       repeat constructor. }
  assert (Hpost : forall payload,
             telegram_event env (Fetch (json_post h (sendMessage_url botToken) payload))).
  { intros payload. exists botToken. repeat split. exact Htoken. }
  rewrite (sendTGMessage_run h message env tr botToken chatId Htoken Hchat).
  destruct (attempt_error _) as [err|].
  - destruct (String.prefix "HTTP 400" err).
    + destruct (attempt_error _) as [err'|]; eexists _, [_; _; _; _];
        (split; [reflexivity|]); (split; [simpl; lia|]);
        repeat (constructor; try apply Hpost; try exact I).
    + eexists _, [_; _]. split; [reflexivity|]. split; [simpl; lia|].
      repeat (constructor; try apply Hpost; try exact I).
  - eexists _, [_; _]. split; [reflexivity|]. split; [simpl; lia|].
    repeat (constructor; try apply Hpost; try exact I).
Qed.

(** X11.  On a response that is not [ok] and whose body is ASCII,
    [sendJson] throws an error whose message is "HTTP", the status and at
    most 200 characters of the body: the message has at most 203
    characters after the status. *)
Theorem sendJson_error_is_capped : forall h url payload tr response,
  settled (network h (List.length (requests tr)) (json_post h url payload))
  = Resolved response ->
  ok response = false ->
  ascii_text (text response) = true ->
  sendJson h url payload tr
  = (Throw (Error (http_error response)), (tr ++ [Fetch (json_post h url payload)])%list)
  /\ String.prefix ("HTTP " ++ show_nat (status response)) (http_error response) = true
  /\ String.length (http_error response)
     <= String.length ("HTTP " ++ show_nat (status response)) + 203.
Proof.
  intros h url payload tr response Hreply Hok _.
  rewrite sendJson_run, Hreply, Hok. split; [reflexivity|].
  unfold http_error.
  set (details := if truthy_str (text response)
                  then " - " ++ slice0 200 (text response) else "").
  set (head := "HTTP " ++ show_nat (status response)).
  assert (Hdetails : String.length details <= 203).
  { subst details. destruct (truthy_str (text response)); [|simpl; lia].
    rewrite string_length_append.
    pose proof (slice0_length 200 (text response)). simpl String.length at 1. lia. }
  assert (Hassoc : "HTTP " ++ show_nat (status response) ++ details = head ++ details).
  { subst head. clear. induction "HTTP " as [|c s IH]; [reflexivity|].
    change (String c s ++ show_nat (status response) ++ details)
      with (String c (s ++ show_nat (status response) ++ details)).
    rewrite IH. reflexivity. }
  rewrite Hassoc. split.
  - clear. induction head as [|c s IH]; [destruct details; reflexivity|].
    change (String c s ++ details) with (String c (s ++ details)).
    unfold String.prefix; fold String.prefix.
    destruct (ascii_dec c c) as [_|ne]; [exact IH | contradiction ne; reflexivity].
  - rewrite string_length_append. lia.
Qed.

Lemma sendJson_error_is_capped_witness :
  let h := test_host [] [replies_with 502 None (replicate 5000 "x")] in
  let url := sendMessage_url "123:abc" in
  let payload := plain_payload "42" "report" in
  fst (sendJson h url payload [])
  = Throw (Error ("HTTP 502 - " ++ replicate 200 "x")).
Proof.
  intros h url payload.
  destruct (sendJson_error_is_capped h url payload []
              {| status := 502; content_type := None; set_cookie := None;
                 text := replicate 5000 "x" |} eq_refl eq_refl
              ltac:(vm_compute; reflexivity)) as [Hrun _].
  rewrite Hrun. vm_compute. reflexivity.
Defined.

(** X12.  Whatever the login procedure does, the handler returns
    normally and ends with exactly one send: of the report, after logging
    it, when there is one; otherwise of "❌ 程序执行出错: " followed by the
    message of the error, after logging that as an error. *)
Theorem handler_always_notifies : forall h login env tr,
  exists level text,
    scheduledEventHandlerWith h login env tr
    = (Ret tt,
       snd (sendTGMessage h text env
              (snd (buildReport h login env tr) ++ [Console level text])%list))
    /\ ((level = Log /\ fst (buildReport h login env tr) = Ret text)
        \/ (level = Err
            /\ exists e, fst (buildReport h login env tr) = Throw e
                         /\ text = "❌ 程序执行出错: " ++ message_of e)).
Proof.
  intros h login env tr.
  unfold scheduledEventHandlerWith, try_catch, bind, console, emit, ret.
  destruct (buildReport h login env tr) as [[report|e] t]; cbn [fst snd].
  - exists Log, report.
    destruct (sendTGMessage_total h report env (t ++ [Console Log report])%list)
      as (v & evs & Hsend & _).
    rewrite Hsend. split; [reflexivity|]. left. split; reflexivity.
  - exists Err, ("❌ 程序执行出错: " ++ message_of e).
    destruct (sendTGMessage_total h ("❌ 程序执行出错: " ++ message_of e) env
                (t ++ [Console Err ("❌ 程序执行出错: " ++ message_of e)])%list)
      as (v & evs & Hsend & _).
    rewrite Hsend. split; [reflexivity|]. right. split; [reflexivity|].
    exists e. split; reflexivity.
Qed.

(** X13.  A configuration that is not valid JSON ends the run before any
    account is looked at: the handler logs and sends the fixed message
    "KOYEB_ACCOUNTS JSON 格式无效", and the parser's own message is
    dropped. *)
Theorem handler_reports_invalid_json : forall h login env s reason tr,
  configured (KOYEB_ACCOUNTS env) = Some s ->
  JSON_parse h s = SyntaxError reason ->
  let text := "❌ 程序执行出错: ❌ KOYEB_ACCOUNTS JSON 格式无效" in
  scheduledEventHandlerWith h login env tr
  = (Ret tt, snd (sendTGMessage h text env (tr ++ [Console Err text])%list)).
Proof.
  intros h login env s reason tr Hset Hparse text.
  unfold scheduledEventHandlerWith, try_catch, bind, console, emit, ret.
  unfold buildReport, runAccounts, validateEnvVariables, bind, throw.
  rewrite Hset, Hparse. cbn [message_of].
  change ("❌ 程序执行出错: " ++ "❌ KOYEB_ACCOUNTS JSON 格式无效") with text.
  destruct (sendTGMessage_total h text env (tr ++ [Console Err text])%list)
    as (v & evs & Hsend & _).
  rewrite Hsend. reflexivity.
Qed.

Lemma handler_reports_invalid_json_witness :
  let h := test_host [] [replies_with 200 None "{}"] in
  let env := test_env "[{email: a@b.c}" in
  let text := "❌ 程序执行出错: ❌ KOYEB_ACCOUNTS JSON 格式无效" in
  scheduledEventHandlerWith h (loginKoyeb h) env []
  = (Ret tt,
     [Console Err text;
      Fetch (json_post h (sendMessage_url "123:abc") (markdown_payload "42" text));
      Console Info "✅ Telegram 消息发送成功"]).
Proof.
  intros h env text.
  rewrite (handler_reports_invalid_json h (loginKoyeb h) env "[{email: a@b.c}"
             "Unexpected token in JSON" [] eq_refl eq_refl).
  vm_compute. reflexivity.
Defined.

(* ------------------------------------------------------------------ *)
(** * Further properties of the batch                                  *)
(* ------------------------------------------------------------------ *)

Lemma login_bodies_app : forall a b : Trace,
  login_bodies (a ++ b)%list = (login_bodies a ++ login_bodies b)%list.
Proof.
  intros. unfold login_bodies. rewrite requests_app. apply flat_map_app.
Qed.

Section General.

Variables (h : Host) (login : string -> json -> M (bool * string)).

Lemma iteration_ext : forall a1 a2 total i st tr,
  at_index a1 i = at_index a2 i ->
  iteration h login a1 total i st tr = iteration h login a2 total i st tr.
Proof. intros a1 a2 total i st tr H. unfold iteration. rewrite H. reflexivity. Qed.

(** The loop looks at the list only through the elements it visits. *)
Lemma for_loop_ext : forall a1 a2 total todo index st tr,
  (forall i, index <= i < index + todo -> at_index a1 i = at_index a2 i) ->
  for_loop h login a1 total todo index st tr = for_loop h login a2 total todo index st tr.
Proof.
  intros a1 a2 total todo. induction todo as [|todo IH]; intros index st tr H.
  - reflexivity.
  - simpl. unfold bind. rewrite (iteration_ext a1 a2) by (apply H; lia).
    destruct (iteration h login a2 total index st tr) as [[st'|x] tr']; [|reflexivity].
    apply IH. intros i Hi. apply H. lia.
Qed.

(** A loop of [a + b] turns is a loop of [a] turns followed, unless it
    threw, by a loop of [b] turns. *)
Lemma for_loop_app : forall accounts total a b index st tr,
  for_loop h login accounts total (a + b) index st tr
  = match for_loop h login accounts total a index st tr with
    | (Ret st', tr') => for_loop h login accounts total b (index + a) st' tr'
    | (Throw x, tr') => (Throw x, tr')
    end.
Proof.
  intros accounts total a b. induction a as [|a IH]; intros index st tr.
  - simpl. unfold ret. rewrite Nat.add_0_r. reflexivity.
  - simpl. unfold bind.
    destruct (iteration h login accounts total index st tr) as [[st'|x] tr'];
      [|reflexivity].
    rewrite IH, Nat.add_succ_r. reflexivity.
Qed.

Lemma iteration_malformed : forall accounts total index bad reason st tr,
  at_index accounts index = Some bad ->
  malformed bad reason ->
  iteration h login accounts total index st tr = (Throw (Error reason), tr).
Proof.
  intros accounts total index bad reason st tr Hat Hbad.
  unfold iteration, bind, lift. rewrite Hat.
  destruct Hbad as [|fields v Hemail Hnull Hstr].
  - reflexivity.
  - simpl. rewrite Hemail.
    destruct v; try reflexivity.
    + contradiction Hnull; reflexivity.
    + contradiction (Hstr s); reflexivity.
Qed.

Lemma runAccounts_array : forall env s l tr,
  configured (KOYEB_ACCOUNTS env) = Some s ->
  JSON_parse h s = Parsed (JArr l) ->
  l <> [] ->
  runAccounts h login env tr
  = (let (o, tr') := for_loop h login (JArr l) (total_of (List.length l))
                              (List.length l) 0 ([], 0) tr in
     match o with
     | Ret st => (Ret (total_of (List.length l), st), tr')
     | Throw x => (Throw x, tr')
     end).
Proof.
  intros env s l tr Hset Hparse Hl. unfold runAccounts, bind, validateEnvVariables.
  rewrite Hset, Hparse. unfold ret at 1.
  change (length_of (JArr l)) with (total_of (List.length l)).
  unfold total_of at 1, is_zero.
  destruct (Z.eqb_spec (Z.of_nat (List.length l)) 0) as [E|_].
  { destruct l; [contradiction Hl; reflexivity | discriminate]. }
  cbn [truthy negb orb]. cbv beta.
  assert (Hiter : iterations h (total_of (List.length l)) = List.length l).
  { unfold iterations, ToNumber, total_of. apply Nat2Z.id. }
  rewrite Hiter. unfold ret.
  destruct (for_loop _ _ _ _ _ _ _ _) as [[st|x] tr']; reflexivity.
Qed.

End General.

Lemma at_index_records_prefix : forall rs tail i,
  i < List.length rs ->
  at_index (JArr (map json_of_record rs ++ tail)) i = at_index (accounts_json rs) i.
Proof.
  intros rs tail i Hi. unfold accounts_json, at_index.
  apply nth_error_app1. rewrite length_map. exact Hi.
Qed.

Lemma at_index_after_records : forall rs bad rest,
  at_index (JArr (map json_of_record rs ++ bad :: rest)) (List.length rs) = Some bad.
Proof.
  intros. unfold at_index. rewrite nth_error_app2; rewrite length_map; [|lia].
  rewrite Nat.sub_diag. reflexivity.
Qed.

(** X14.  The fields of an account are read outside the [try] of its
    login: an element that is [null], or whose email is not a string,
    makes the run throw the [TypeError], so that no report is built, after
    the accounts before it were logged in. *)
Theorem malformed_element_aborts_batch : forall h env s rs bad rest reason tr,
  configured (KOYEB_ACCOUNTS env) = Some s ->
  JSON_parse h s = Parsed (JArr (map json_of_record rs ++ bad :: rest)) ->
  malformed bad reason ->
  fst (buildReport h (loginKoyeb h) env tr) = Throw (Error reason)
  /\ timeline (snd (buildReport h (loginKoyeb h) env tr))
     = (timeline tr ++ schedule (usable h) 0 rs)%list.
Proof.
  intros h env s rs bad rest reason tr Hset Hparse Hbad.
  rewrite buildReport_trace. unfold buildReport, bind.
  rewrite (runAccounts_array h (loginKoyeb h) env s _ tr Hset Hparse)
    by (destruct rs; discriminate).
  set (accounts := JArr (map json_of_record rs ++ bad :: rest)).
  set (total := total_of (List.length (map json_of_record rs ++ bad :: rest))).
  assert (Hlen : List.length (map json_of_record rs ++ bad :: rest)
                 = List.length rs + S (List.length rest)).
  { rewrite length_app, length_map. reflexivity. }
  rewrite Hlen, for_loop_app.
  rewrite (for_loop_ext h (loginKoyeb h) accounts (accounts_json rs))
    by (intros i Hi; apply at_index_records_prefix; lia).
  pose proof (for_loop_timeline h (loginKoyeb h) rs [] total ([], 0) tr
                (loginKoyeb_timeline h)) as Htime.
  destruct (for_loop_records h (loginKoyeb h) rs [] total [] 0 tr)
    as (items & tr1 & Hrun & _).
  simpl app in Hrun, Htime. simpl List.length in Hrun, Htime.
  rewrite Hrun in Htime |- *. cbn [snd] in Htime.
  simpl for_loop. unfold bind.
  rewrite (iteration_malformed h (loginKoyeb h) accounts total _ bad reason)
    by (try exact Hbad; apply at_index_after_records).
  cbn [fst snd]. split; [reflexivity | exact Htime].
Qed.

Lemma malformed_element_aborts_batch_witness :
  let rs := [account "a@b.c" "secret"] in
  let l := (map json_of_record rs ++ [JNull; json_of_record (account "c@d.e" "x")])%list in
  let h := test_host [(plain_stringify (JArr l), JArr l)]
                     [replies_with 200 None ""; replies_with 200 None "{}"] in
  let env := test_env (plain_stringify (JArr l)) in
  fst (buildReport h (loginKoyeb h) env [])
  = Throw (Error "Cannot read properties of null (reading 'email')")
  /\ timeline (snd (buildReport h (loginKoyeb h) env [])) = [LoginCall].
Proof.
  intros rs l h env.
  exact (malformed_element_aborts_batch h env (plain_stringify (JArr l)) rs JNull
           [json_of_record (account "c@d.e" "x")] _ [] eq_refl eq_refl malformed_null).
Defined.

Lemma sendTGMessage_bodies : forall h message env tr,
  login_bodies (snd (sendTGMessage h message env tr)) = login_bodies tr.
Proof.
  intros h message env tr.
  destruct (configured (TG_BOT_TOKEN env)) as [botToken|] eqn:Htoken.
  2: { rewrite sendTGMessage_unconfigured by (left; exact Htoken).
       cbn [snd]. rewrite login_bodies_app. exact (app_nil_r _). }
  destruct (configured (TG_CHAT_ID env)) as [chatId|] eqn:Hchat.
  2: { rewrite sendTGMessage_unconfigured by (right; exact Hchat).
       cbn [snd]. rewrite login_bodies_app. exact (app_nil_r _). }
  rewrite (sendTGMessage_run h message env tr botToken chatId Htoken Hchat).
  destruct (attempt_error _) as [err|];
    [destruct (String.prefix "HTTP 400" err); [destruct (attempt_error _)|]|];
    cbn [snd]; rewrite login_bodies_app; exact (app_nil_r _).
Qed.

Lemma loginKoyeb_bodies : forall h e p t,
  truthy_str e = true -> truthy p = true ->
  login_bodies (snd (loginKoyeb h e p t))
  = (login_bodies t ++ [Some (JSON_stringify h (login_data h e p))])%list.
Proof.
  intros h e p t He Hp. rewrite (loginKoyeb_eq h e p t He Hp). cbn [snd].
  rewrite login_bodies_app. f_equal.
  unfold login_bodies. simpl requests. rewrite requests_app, preflight_events_quiet.
  destruct (_ <? _)%N; reflexivity.
Qed.

Section Bodies.

Variables (h : Host) (login : string -> json -> M (bool * string)).
Hypothesis login_posts_once : forall e p t,
  truthy_str e = true -> truthy p = true ->
  login_bodies (snd (login e p t))
  = (login_bodies t ++ [Some (JSON_stringify h (login_data h e p))])%list.

Lemma for_loop_bodies : forall rs pre total st tr,
  login_bodies (snd (for_loop h login (accounts_json (pre ++ rs)) total
                              (List.length rs) (List.length pre) st tr))
  = (login_bodies tr
     ++ map (fun r => Some (JSON_stringify h
                              (login_data h (login_name h r) (login_secret r))))
            (filter (usable h) rs))%list.
Proof.
  induction rs as [|r rs IH]; intros pre total [results sc] tr.
  - simpl. rewrite app_nil_r. reflexivity.
  - simpl for_loop. simpl filter. unfold bind. rewrite iteration_record.
    destruct (step_over pre r rs) as [-> ->].
    destruct (usable h r) eqn:Hr.
    + rewrite attempt_run. cbv zeta.
      destruct (usable_credentials h r Hr) as [He Hp].
      rewrite IH, (login_posts_once _ _ _ He Hp).
      unfold before_login. rewrite login_bodies_app.
      replace (login_bodies (Console Info _ :: _)) with (@nil (option string))
        by (destruct (0 <? List.length pre)%nat; reflexivity).
      rewrite app_nil_r, <- app_assoc. reflexivity.
    + rewrite IH, login_bodies_app. simpl. rewrite app_nil_r. reflexivity.
Qed.

End Bodies.

(** X15.  The accounts are logged in strictly in the order of the list:
    the login requests of a run are one per usable record, in list order,
    and the body of each is the payload with the email of its record,
    trimmed by the handler and again by [loginKoyeb], and its password.
    The sends of the handler add none. *)
Theorem login_posts_follow_list_order : forall h env s rs tr,
  configured (KOYEB_ACCOUNTS env) = Some s ->
  JSON_parse h s = Parsed (accounts_json rs) ->
  login_bodies (snd (scheduledEventHandler h env tr))
  = (login_bodies tr
     ++ map (fun r => Some (JSON_stringify h
                              (JObj [("email", JStr (trim h (login_name h r)));
                                     ("password", login_secret r)])))
            (filter (usable h) rs))%list.
Proof.
  intros h env s rs tr Hset Hparse.
  unfold scheduledEventHandler, scheduledEventHandlerWith, try_catch, bind,
         console, emit, ret.
  assert (Hrun : login_bodies (snd (buildReport h (loginKoyeb h) env tr))
                 = (login_bodies tr
                    ++ map (fun r => Some (JSON_stringify h
                                             (login_data h (login_name h r) (login_secret r))))
                           (filter (usable h) rs))%list).
  { rewrite buildReport_trace. destruct rs as [|r rs].
    - rewrite (runAccounts_none h (loginKoyeb h) env s [] Hset Hparse tr eq_refl).
      simpl. rewrite app_nil_r. reflexivity.
    - rewrite (runAccounts_some h (loginKoyeb h) env s (r :: rs) Hset Hparse tr)
        by discriminate.
      pose proof (for_loop_bodies h (loginKoyeb h) (loginKoyeb_bodies h) (r :: rs) []
                    (total_of (List.length (r :: rs))) ([], 0) tr) as Hloop.
      simpl app in Hloop. simpl List.length in Hloop at 3.
      destruct (for_loop _ _ _ _ _ _ _ _) as [[st|x] t]; exact Hloop. }
  unfold login_data in Hrun. rewrite <- Hrun.
  destruct (buildReport h (loginKoyeb h) env tr) as [[report|x] t]; cbn [snd].
  - pose proof (sendTGMessage_bodies h report env (t ++ [Console Log report])%list) as Hs.
    destruct (sendTGMessage_total h report env (t ++ [Console Log report])%list)
      as (v & evs & Hsend & _).
    rewrite Hsend in Hs |- *. cbn [snd] in Hs |- *.
    rewrite Hs, login_bodies_app. exact (app_nil_r _).
  - pose proof (sendTGMessage_bodies h ("❌ 程序执行出错: " ++ message_of x) env
                  (t ++ [Console Err ("❌ 程序执行出错: " ++ message_of x)])%list) as Hs.
    destruct (sendTGMessage_total h ("❌ 程序执行出错: " ++ message_of x) env
                (t ++ [Console Err ("❌ 程序执行出错: " ++ message_of x)])%list)
      as (v & evs & Hsend & _).
    rewrite Hsend in Hs |- *. cbn [snd] in Hs |- *.
    rewrite Hs, login_bodies_app. exact (app_nil_r _).
Qed.

Lemma login_posts_follow_list_order_witness :
  let rs := [account " z@b.c" "last"; account "" "x"; account "a@b.c " "first"] in
  let h := test_host [(plain_stringify (accounts_json rs), accounts_json rs)]
                     [replies_with 200 None ""; replies_with 403 None "captcha"] in
  let env := test_env (plain_stringify (accounts_json rs)) in
  login_bodies (snd (scheduledEventHandler h env []))
  = [Some (plain_stringify (JObj [("email", JStr "z@b.c"); ("password", JStr "last")]));
     Some (plain_stringify (JObj [("email", JStr "a@b.c"); ("password", JStr "first")]))].
Proof.
  intros rs h env.
  exact (login_posts_follow_list_order h env (plain_stringify (accounts_json rs)) rs []
           eq_refl eq_refl).
Defined.

(** X16.  A send returns [true] exactly when its last attempt met no
    error: the first one, or the plain-text retry made after an error whose
    message starts with "HTTP 400". *)
Theorem send_delivers_iff_last_attempt_ok : forall h message env tr botToken chatId,
  configured (TG_BOT_TOKEN env) = Some botToken ->
  configured (TG_CHAT_ID env) = Some chatId ->
  let first := json_post h (sendMessage_url botToken) (markdown_payload chatId message) in
  let second := json_post h (sendMessage_url botToken) (plain_payload chatId message) in
  let n := List.length (requests tr) in
  fst (sendTGMessage h message env tr) = Ret (JBool true)
  <-> (attempt_error (settled (network h n first)) = None
       \/ exists err,
           attempt_error (settled (network h n first)) = Some err
           /\ String.prefix "HTTP 400" err = true
           /\ attempt_error (settled (network h (S n) second)) = None).
Proof.
  intros h message env tr botToken chatId Htoken Hchat first second n.
  rewrite (sendTGMessage_run h message env tr botToken chatId Htoken Hchat).
  fold first second n.
  destruct (attempt_error (settled (network h n first))) as [err|].
  - destruct (String.prefix "HTTP 400" err) eqn:Hprefix.
    + destruct (attempt_error (settled (network h (S n) second))) as [err'|]; cbn [fst].
      * split; [discriminate|]. intros [H | (x & _ & _ & H)]; discriminate.
      * split; [|reflexivity]. intros _. right. exists err. repeat split. exact Hprefix.
    + cbn [fst]. split; [discriminate|].
      intros [H | (x & Hx & Hp & _)]; [discriminate|]. congruence.
  - cbn [fst]. split; [|reflexivity]. intros _. left. reflexivity.
Qed.

Lemma send_delivers_iff_last_attempt_ok_witness :
  let h := test_host [] [replies_with 200 None "{}"] in
  fst (sendTGMessage h "report" (test_env "[]") []) = Ret (JBool true).
Proof.
  intros h.
  apply (send_delivers_iff_last_attempt_ok h "report" (test_env "[]") [] "123:abc" "42"
           eq_refl eq_refl).
  left. reflexivity.
Defined.

Lemma string_get_some : forall s i,
  i < String.length s -> exists c, String.get i s = Some c.
Proof.
  induction s as [|c s IH]; intros i Hi; simpl in Hi; [lia|].
  destruct i as [|i]; [exists c; reflexivity|].
  simpl. apply IH. lia.
Qed.

Lemma for_loop_characters : forall h login s total todo index st tr,
  index + todo <= String.length s ->
  for_loop h login (JStr s) total todo index st tr
  = (Ret st,
     (tr ++ repeat (Console Warn "⚠️ 账户信息不完整，跳过: undefined") todo)%list).
Proof.
  intros h login s total todo.
  induction todo as [|todo IH]; intros index st tr Hlen.
  - simpl. rewrite app_nil_r. reflexivity.
  - simpl for_loop. unfold bind, iteration, bind, lift, at_index.
    destruct (string_get_some s index ltac:(lia)) as [c ->].
    cbn [member field optional_trim complete show_email].
    unfold console, emit, ret. rewrite IH by lia.
    rewrite <- app_assoc. reflexivity.
Qed.

(** X17.  A configuration that is a JSON string of ASCII text is walked
    character by character: each character is skipped with a warning that
    names [undefined], no request is made, and the run throws the error of
    the empty result list. *)
Theorem string_configuration_is_walked : forall h login env s text tr,
  configured (KOYEB_ACCOUNTS env) = Some s ->
  JSON_parse h s = Parsed (JStr text) ->
  text <> "" ->
  ascii_text text = true ->
  buildReport h login env tr
  = (Throw (Error "❌ 没有任何账户处理结果"),
     (tr ++ repeat (Console Warn "⚠️ 账户信息不完整，跳过: undefined")
                   (String.length text))%list).
Proof.
  intros h login env s text tr Hset Hparse Htext _.
  unfold buildReport, runAccounts, bind, validateEnvVariables.
  rewrite Hset, Hparse. unfold ret at 1.
  assert (Htruthy : truthy (JStr text) = true).
  { destruct text; [contradiction Htext; reflexivity | reflexivity]. }
  assert (Hzero : is_zero (length_of (JStr text)) = false).
  { destruct text; [contradiction Htext; reflexivity | reflexivity]. }
  rewrite Htruthy, Hzero. cbn [negb orb].
  assert (Hiter : iterations h (length_of (JStr text)) = String.length text).
  { unfold iterations, ToNumber, length_of. apply Nat2Z.id. }
  rewrite Hiter, for_loop_characters by lia. reflexivity.
Qed.

Lemma string_configuration_is_walked_witness :
  let h := test_host [(plain_stringify (JStr "a@b"), JStr "a@b")] [] in
  buildReport h (loginKoyeb h) (test_env (plain_stringify (JStr "a@b"))) []
  = (Throw (Error "❌ 没有任何账户处理结果"),
     [Console Warn "⚠️ 账户信息不完整，跳过: undefined";
      Console Warn "⚠️ 账户信息不完整，跳过: undefined";
      Console Warn "⚠️ 账户信息不完整，跳过: undefined"]).
Proof.
  intros h.
  exact (string_configuration_is_walked h (loginKoyeb h)
           (test_env (plain_stringify (JStr "a@b")))
           (plain_stringify (JStr "a@b")) "a@b" [] eq_refl eq_refl ltac:(discriminate)
           eq_refl).
Defined.
